(** * Database Decision Engine: a shallow embedding of [decision_engine.py]

    The engine scores MySQL, PostgreSQL and MongoDB against five categorical
    requirements, ranks them, explains the ranking, and lists trade-offs and
    out-of-set alternatives.

    Modelling choices:
    - a Python [dict] keyed by strings is a [gmap string _];
    - a Python [int] is a [Z];
    - a Python exception is the [Raise] branch of [result]; the only
      exceptions the engine can raise are [KeyError] (subscripting a dict
      with an absent key) and [IndexError] (subscripting a list out of
      range);
    - a local list that is extended with [append] is threaded through
      [let]s and grows at its right end. *)

From Stdlib Require Import ZArith String DecimalString Lia.
From stdpp Require Import gmap strings list fin_maps sorting.

Local Open Scope string_scope.
Local Open Scope Z_scope.
Local Open Scope list_scope.

(** ** Exceptions *)

Inductive exn : Type :=
| KeyError (key : string)
| IndexError.

Inductive result (A : Type) : Type :=
| Ok (a : A)
| Raise (e : exn).
Arguments Ok {A} a.
Arguments Raise {A} e.

#[global] Instance result_ret : MRet result := @Ok.
#[global] Instance result_bind : MBind result :=
  fun A B (f : A → result B) (c : result A) =>
    match c with
    | Ok a => f a
    | Raise e => Raise e
    end.

(** [d[k]] on a dictionary. *)
Definition getitem {V : Type} (d : gmap string V) (k : string) : result V :=
  match d !! k with
  | Some v => Ok v
  | None => Raise (KeyError k)
  end.

(** [l[i]] on a list, for a non-negative index. *)
Definition list_getitem {A : Type} (l : list A) (i : nat) : result A :=
  match l !! i with
  | Some x => Ok x
  | None => Raise IndexError
  end.

(** [for x in l: s = body x s], stopping at the first exception. *)
Fixpoint for_each {A S : Type} (l : list A) (body : A → S → result S) (s : S)
  : result S :=
  match l with
  | [] => Ok s
  | x :: l' => s' ← body x s; for_each l' body s'
  end.

(** [d[k] == v]. *)
Definition item_is (d : gmap string string) (k v : string) : result bool :=
  x ← getitem d k; Ok (String.eqb x v).

(** [a and b]: the right operand is evaluated only when the left is true. *)
Definition py_and (a b : result bool) : result bool :=
  a ≫= λ x : bool, if x then b else Ok false.

(** [str(n)] for an integer. *)
Definition str (n : Z) : string := NilZero.string_of_int (Z.to_int n).

(** ** Data classes *)

Record DatabaseProfile : Type := {
  name : string;
  db_type : string;
  score : Z;
  pros : list string;
  cons_ : list string   (* field [cons] of the source *)
}.

Record Tradeoff : Type := {
  title : string;
  description : string
}.

Record Alternative : Type := {
  alt_database : string;   (* field [database] of the source *)
  reason : string
}.

Record Recommendation : Type := {
  database : string;
  confidence : string;
  reasoning : list string
}.

(** The dictionary returned by [analyze], one field per key. *)
Record AnalysisResult : Type := {
  profiles : list DatabaseProfile;
  tradeoffs : list Tradeoff;
  recommendation : Recommendation;
  alternatives : list Alternative;
  scores : gmap string Z
}.

(** ** The engine's static tables *)

Definition databases : list string := ["mysql"; "postgresql"; "mongodb"].

Definition app_type_scores : gmap string (gmap string Z) :=
  list_to_map [
    ("Web", list_to_map [("mysql", 3); ("postgresql", 3); ("mongodb", 2)]);
    ("Analytics", list_to_map [("mysql", 2); ("postgresql", 4); ("mongodb", 1)]);
    ("Real-time", list_to_map [("mysql", 2); ("postgresql", 2); ("mongodb", 4)])
  ].

Definition data_structure_scores : gmap string (gmap string Z) :=
  list_to_map [
    ("Structured", list_to_map [("mysql", 4); ("postgresql", 4); ("mongodb", 1)]);
    ("Semi-structured", list_to_map [("mysql", 2); ("postgresql", 3); ("mongodb", 4)]);
    ("Unstructured", list_to_map [("mysql", 1); ("postgresql", 2); ("mongodb", 4)])
  ].

Definition scalability_scores : gmap string (gmap string Z) :=
  list_to_map [
    ("Low", list_to_map [("mysql", 3); ("postgresql", 3); ("mongodb", 2)]);
    ("Medium", list_to_map [("mysql", 3); ("postgresql", 3); ("mongodb", 3)]);
    ("High", list_to_map [("mysql", 2); ("postgresql", 2); ("mongodb", 4)])
  ].

Definition transaction_scores : gmap string (gmap string Z) :=
  list_to_map [
    ("Low", list_to_map [("mysql", 2); ("postgresql", 2); ("mongodb", 3)]);
    ("High", list_to_map [("mysql", 4); ("postgresql", 4); ("mongodb", 2)])
  ].

Definition schema_scores : gmap string (gmap string Z) :=
  list_to_map [
    ("Yes", list_to_map [("mysql", 1); ("postgresql", 2); ("mongodb", 4)]);
    ("No", list_to_map [("mysql", 4); ("postgresql", 4); ("mongodb", 2)])
  ].

(** One entry of [db_profiles]: the inner dictionary with the keys
    ['name'], ['type'], ['pros'] and ['cons']. *)
Record ProfileEntry : Type := {
  entry_name : string;
  entry_type : string;
  entry_pros : list string;
  entry_cons : list string
}.

Definition mysql_entry : ProfileEntry := {|
  entry_name := "MySQL";
  entry_type := "Relational (SQL)";
  entry_pros := [
    "Mature and widely adopted with extensive community support";
    "Excellent for structured data with ACID compliance";
    "Strong performance for read-heavy workloads";
    "Easy to learn and widely supported by hosting providers";
    "Great for traditional web applications" ];
  entry_cons := [
    "Limited support for complex analytics queries";
    "Horizontal scaling requires additional complexity (sharding)";
    "Less flexible with schema changes";
    "JSON support is basic compared to PostgreSQL";
    "Advanced features lag behind PostgreSQL" ] |}.

Definition postgresql_entry : ProfileEntry := {|
  entry_name := "PostgreSQL";
  entry_type := "Relational (SQL)";
  entry_pros := [
    "Most advanced open-source relational database";
    "Excellent for complex queries and analytics";
    "Superior JSON/JSONB support for semi-structured data";
    "Strong extensibility with custom functions and data types";
    "Best-in-class data integrity and ACID compliance" ];
  entry_cons := [
    "Slightly steeper learning curve than MySQL";
    "Higher memory consumption";
    "Horizontal scaling still requires effort";
    "Can be overkill for simple applications";
    "Configuration complexity for optimization" ] |}.

Definition mongodb_entry : ProfileEntry := {|
  entry_name := "MongoDB";
  entry_type := "NoSQL (Document)";
  entry_pros := [
    "Excellent horizontal scalability (built-in sharding)";
    "Schema flexibility for evolving data models";
    "High performance for real-time applications";
    "Natural fit for JSON/document-based data";
    "Easy to get started with minimal setup" ];
  entry_cons := [
    "Eventual consistency can complicate transactions";
    "No built-in joins (requires application-level logic)";
    "Higher storage overhead";
    "Not ideal for complex relational data";
    "ACID transactions only within single documents by default" ] |}.

Definition db_profiles : gmap string ProfileEntry :=
  list_to_map [
    ("mysql", mysql_entry);
    ("postgresql", postgresql_entry);
    ("mongodb", mongodb_entry)
  ].

(** ** [calculate_scores] *)

(** [k in d]. *)
Definition contains {V : Type} (d : gmap string V) (k : string) : bool :=
  match d !! k with
  | Some _ => true
  | None => false
  end.

(** One of the five blocks of [calculate_scores]:
<<
    if user_inputs[key] in table:
        for db in self.databases:
            scores[db] += table[user_inputs[key]][db]
>>
    The augmented assignment reads [scores[db]] before it evaluates its
    right-hand side. *)
Definition add_criterion (table : gmap string (gmap string Z)) (key : string)
    (user_inputs : gmap string string) (scores : gmap string Z)
  : result (gmap string Z) :=
  value ← getitem user_inputs key;
  if contains table value then
    for_each databases (λ (db : string) (scores : gmap string Z),
      old ← getitem scores db;
      value ← getitem user_inputs key;
      row ← getitem table value;
      points ← getitem row db;
      Ok (<[db := old + points]> scores)) scores
  else Ok scores.

Definition calculate_scores (user_inputs : gmap string string)
  : result (gmap string Z) :=
  let scores : gmap string Z := list_to_map ((λ db, (db, 0)) <$> databases) in
  (* Application Type *)
  scores ← add_criterion app_type_scores "app_type" user_inputs scores;
  (* Data Structure *)
  scores ← add_criterion data_structure_scores "data_structure" user_inputs scores;
  (* Scalability *)
  scores ← add_criterion scalability_scores "scalability" user_inputs scores;
  (* Transactions *)
  scores ← add_criterion transaction_scores "transactions" user_inputs scores;
  (* Schema Flexibility *)
  scores ← add_criterion schema_scores "schema_flexibility" user_inputs scores;
  Ok scores.

(** ** [generate_database_profiles] *)

(** [list.sort(key=lambda x: x.score, reverse=True)]: a stable sort, so
    profiles of equal score keep the order they had in the list. Inserting
    the head into the sorted tail, it goes in front of the first profile
    whose score is not greater than its own. *)
Fixpoint insert_by_score (p : DatabaseProfile) (l : list DatabaseProfile)
  : list DatabaseProfile :=
  match l with
  | [] => [p]
  | q :: l' => if score p <? score q then q :: insert_by_score p l' else p :: l
  end.

Fixpoint sort_by_score_desc (l : list DatabaseProfile) : list DatabaseProfile :=
  match l with
  | [] => []
  | p :: l' => insert_by_score p (sort_by_score_desc l')
  end.

(** The static entry [db_profiles[db_key]] is fetched once here; the source
    subscripts it four times, with [scores[db_key]] read after the first
    two. *)
Definition generate_database_profiles (scores : gmap string Z)
  : result (list DatabaseProfile) :=
  profiles ← for_each databases
    (λ (db_key : string) (profiles : list DatabaseProfile),
      entry ← getitem db_profiles db_key;
      s ← getitem scores db_key;
      Ok (profiles ++ [ {| name := entry_name entry;
                           db_type := entry_type entry;
                           score := s;
                           pros := entry_pros entry;
                           cons_ := entry_cons entry |} ])) [];
  (* Sort by score in descending order *)
  Ok (sort_by_score_desc profiles).

(** ** [identify_tradeoffs] *)

Definition tradeoff_schema : Tradeoff := {|
  title := "Schema Rigidity vs Flexibility";
  description := ("You want structured data but also schema flexibility. "
    ++ "SQL databases enforce schemas strongly, while MongoDB offers "
    ++ "flexibility but sacrifices relational integrity.")%string |}.

Definition tradeoff_cap : Tradeoff := {|
  title := "Consistency vs Scalability (CAP Theorem)";
  description := ("High scalability often requires eventual consistency (MongoDB), "
    ++ "but high transaction requirements need strong ACID guarantees "
    ++ "(PostgreSQL/MySQL). This is a fundamental distributed systems trade-off.")%string |}.

Definition tradeoff_analytics : Tradeoff := {|
  title := "SQL vs NoSQL for Analytics";
  description := ("SQL databases excel at complex queries and joins, but NoSQL scales "
    ++ "better horizontally. Consider PostgreSQL with read replicas or "
    ++ "specialized analytics databases like ClickHouse.")%string |}.

Definition tradeoff_document : Tradeoff := {|
  title := "Document Flexibility vs Transaction Integrity";
  description := ("MongoDB handles unstructured data well but has limited multi-document "
    ++ "transaction support. PostgreSQL JSONB offers a middle ground with "
    ++ "strong transactions and flexible document storage.")%string |}.

Definition tradeoff_read_write : Tradeoff := {|
  title := "Read Optimization vs Write Optimization";
  description := ("MySQL excels at read-heavy workloads, MongoDB at write-heavy ones. "
    ++ "PostgreSQL balances both. Consider your read/write ratio.")%string |}.

(** [if c: l.append(x)]. *)
Definition append_if {A : Type} (c : bool) (x : A) (l : list A) : list A :=
  if c then l ++ [x] else l.

Definition identify_tradeoffs (user_inputs : gmap string string)
  : result (list Tradeoff) :=
  let tradeoffs : list Tradeoff := [] in
  (* Schema rigidity vs flexibility *)
  c ← py_and (item_is user_inputs "data_structure" "Structured")
             (item_is user_inputs "schema_flexibility" "Yes");
  let tradeoffs := append_if c tradeoff_schema tradeoffs in
  (* Consistency vs scalability *)
  c ← py_and (item_is user_inputs "scalability" "High")
             (item_is user_inputs "transactions" "High");
  let tradeoffs := append_if c tradeoff_cap tradeoffs in
  (* SQL vs NoSQL for analytics *)
  c ← py_and (item_is user_inputs "app_type" "Analytics")
             (item_is user_inputs "scalability" "High");
  let tradeoffs := append_if c tradeoff_analytics tradeoffs in
  (* Document flexibility vs transaction integrity *)
  c ← py_and (item_is user_inputs "data_structure" "Unstructured")
             (item_is user_inputs "transactions" "High");
  let tradeoffs := append_if c tradeoff_document tradeoffs in
  (* Read vs write optimization *)
  c ← item_is user_inputs "app_type" "Web";
  let tradeoffs := append_if c tradeoff_read_write tradeoffs in
  Ok tradeoffs.

(** ** [generate_recommendation] *)

(** The f-string of the close competition note, for the runner-up
    [p1 = profiles[1]] and the top profile [p0 = profiles[0]]. *)
Definition closeness_note (p1 p0 : DatabaseProfile) : string :=
  ("Note: " ++ name p1 ++ " scored closely "
   ++ "(" ++ str (score p1) ++ " vs " ++ str (score p0) ++ "). "
   ++ "Consider evaluating both options based on team expertise.")%string.

Definition mysql_reasoning (user_inputs : gmap string string)
  : result (list string) :=
  let reasoning :=
    [ ("MySQL is recommended for your traditional web application needs "
       ++ "with structured data.")%string ] in
  c ← item_is user_inputs "transactions" "High";
  let reasoning := append_if c
    "Strong ACID compliance meets your transaction requirements." reasoning in
  c ← item_is user_inputs "scalability" "High";
  let reasoning := append_if (negb c)
    "Vertical scaling is sufficient for your scalability needs." reasoning in
  c ← item_is user_inputs "app_type" "Web";
  let reasoning := append_if c
    ("Proven track record for web applications with excellent "
     ++ "community support.")%string reasoning in
  Ok reasoning.

Definition postgresql_reasoning (user_inputs : gmap string string)
  : result (list string) :=
  let reasoning :=
    [ ("PostgreSQL offers the best balance of advanced features for "
       ++ "your requirements.")%string ] in
  c ← item_is user_inputs "app_type" "Analytics";
  let reasoning := append_if c
    ("Superior query optimization and window functions support "
     ++ "complex analytics workloads.")%string reasoning in
  c ← item_is user_inputs "data_structure" "Semi-structured";
  let reasoning := append_if c
    ("Excellent JSONB support handles semi-structured data efficiently "
     ++ "while maintaining relational integrity.")%string reasoning in
  c ← item_is user_inputs "transactions" "High";
  let reasoning := append_if c
    ("Industry-leading ACID compliance and advanced transaction "
     ++ "isolation ensures data integrity.")%string reasoning in
  c ← item_is user_inputs "schema_flexibility" "Yes";
  let reasoning := append_if c
    ("JSONB and extension support provide flexibility while maintaining "
     ++ "SQL capabilities.")%string reasoning in
  Ok reasoning.

Definition mongodb_reasoning (user_inputs : gmap string string)
  : result (list string) :=
  let reasoning :=
    [ "MongoDB is the best choice for your scalability and flexibility needs." ] in
  c ← item_is user_inputs "scalability" "High";
  let reasoning := append_if c
    ("Built-in sharding provides excellent horizontal scalability "
     ++ "without complex configuration.")%string reasoning in
  c ← item_is user_inputs "schema_flexibility" "Yes";
  let reasoning := append_if c
    ("Schema-less design allows rapid iteration and accommodates "
     ++ "evolving data models.")%string reasoning in
  c ← item_is user_inputs "app_type" "Real-time";
  let reasoning := append_if c
    ("Optimized for high-throughput real-time applications with "
     ++ "low-latency operations.")%string reasoning in
  c ← item_is user_inputs "data_structure" "Unstructured";
  let reasoning := append_if c
    "Document model naturally fits unstructured and hierarchical data."
    reasoning in
  Ok reasoning.

Definition generate_recommendation (profiles : list DatabaseProfile)
    (user_inputs : gmap string string) : result Recommendation :=
  top_db ← list_getitem profiles 0;
  reasoning ←
    (if String.eqb (name top_db) "MySQL" then mysql_reasoning user_inputs
     else if String.eqb (name top_db) "PostgreSQL" then postgresql_reasoning user_inputs
     else (* MongoDB *) mongodb_reasoning user_inputs);
  (* Add close competition note *)
  reasoning ←
    (if (1 <? length profiles)%nat then
       p0 ← list_getitem profiles 0;
       p1 ← list_getitem profiles 1;
       let score_diff := score p0 - score p1 in
       Ok (append_if (score_diff <=? 2) (closeness_note p1 p0) reasoning)
     else Ok reasoning);
  (* Determine confidence level *)
  score_diff ←
    (if (1 <? length profiles)%nat then
       p0 ← list_getitem profiles 0;
       p1 ← list_getitem profiles 1;
       Ok (score p0 - score p1)
     else Ok 5);
  let confidence :=
    if 3 <? score_diff then "High"
    else if 1 <? score_diff then "Medium"
    else "Low" in
  Ok {| database := name top_db;
        confidence := confidence;
        reasoning := reasoning |}.

(** ** [suggest_alternatives] *)

Definition alternative_olap : Alternative := {|
  alt_database := "ClickHouse or Apache Druid";
  reason := ("Columnar databases optimized for massive-scale analytics and "
    ++ "OLAP queries with superior compression and query performance.")%string |}.

Definition alternative_streaming : Alternative := {|
  alt_database := "Redis or Apache Kafka";
  reason := ("In-memory data stores and streaming platforms optimized for "
    ++ "real-time data processing and sub-millisecond latency.")%string |}.

Definition alternative_distributed_sql : Alternative := {|
  alt_database := "CockroachDB or Google Spanner";
  reason := ("Distributed SQL databases offering both horizontal scalability and "
    ++ "strong consistency (bypassing CAP theorem limitations).")%string |}.

Definition alternative_search : Alternative := {|
  alt_database := "Elasticsearch";
  reason := ("Excellent for full-text search, log analytics, and unstructured "
    ++ "data exploration with powerful aggregation capabilities.")%string |}.

Definition alternative_time_series : Alternative := {|
  alt_database := "TimescaleDB or InfluxDB";
  reason := ("Specialized time-series databases for IoT, monitoring, and "
    ++ "event-driven applications requiring time-based queries.")%string |}.

Definition suggest_alternatives (user_inputs : gmap string string)
  : result (list Alternative) :=
  let alternatives : list Alternative := [] in
  (* Analytics + High Scalability *)
  c ← py_and (item_is user_inputs "app_type" "Analytics")
             (item_is user_inputs "scalability" "High");
  let alternatives := append_if c alternative_olap alternatives in
  (* Real-time + Unstructured *)
  c ← py_and (item_is user_inputs "app_type" "Real-time")
             (item_is user_inputs "data_structure" "Unstructured");
  let alternatives := append_if c alternative_streaming alternatives in
  (* High scalability + High transactions *)
  c ← py_and (item_is user_inputs "scalability" "High")
             (item_is user_inputs "transactions" "High");
  let alternatives := append_if c alternative_distributed_sql alternatives in
  (* Unstructured + Analytics *)
  c ← py_and (item_is user_inputs "data_structure" "Unstructured")
             (item_is user_inputs "app_type" "Analytics");
  let alternatives := append_if c alternative_search alternatives in
  (* Time-series workloads *)
  c ← item_is user_inputs "app_type" "Real-time";
  let alternatives := append_if c alternative_time_series alternatives in
  Ok alternatives.

(** ** [analyze] *)

Definition analyze (user_inputs : gmap string string) : result AnalysisResult :=
  (* Calculate scores *)
  scores ← calculate_scores user_inputs;
  (* Generate database profiles *)
  profiles ← generate_database_profiles scores;
  (* Identify trade-offs *)
  tradeoffs ← identify_tradeoffs user_inputs;
  (* Generate recommendation *)
  recommendation ← generate_recommendation profiles user_inputs;
  (* Suggest alternatives *)
  alternatives ← suggest_alternatives user_inputs;
  Ok {| profiles := profiles;
        tradeoffs := tradeoffs;
        recommendation := recommendation;
        alternatives := alternatives;
        scores := scores |}.

(** The dictionary literal built in [app.py] from the five radio buttons. *)
Definition make_inputs (app_type data_structure scalability transactions
    schema_flexibility : string) : gmap string string :=
  list_to_map [
    ("app_type", app_type);
    ("data_structure", data_structure);
    ("scalability", scalability);
    ("transactions", transactions);
    ("schema_flexibility", schema_flexibility)
  ].

(** ** Inputs: the five fields and their enumerations *)

Definition input_keys : list string :=
  ["app_type"; "data_structure"; "scalability"; "transactions";
   "schema_flexibility"].

(** Every one of the five keys is present, whatever its value. *)
Definition has_all_keys (user_inputs : gmap string string) : bool :=
  forallb (contains user_inputs) input_keys.

(** The first of the five keys, in the order [calculate_scores] reads them,
    that the dictionary lacks. *)
Definition first_missing (user_inputs : gmap string string) : option string :=
  find (λ k, negb (contains user_inputs k)) input_keys.

(** The values each field may take: the options of the five radio buttons
    of [app.py], which are also the keys of the five score tables. *)
Definition criteria : list (string * list string) :=
  [ ("app_type", ["Web"; "Analytics"; "Real-time"]);
    ("data_structure", ["Structured"; "Semi-structured"; "Unstructured"]);
    ("scalability", ["Low"; "Medium"; "High"]);
    ("transactions", ["Low"; "High"]);
    ("schema_flexibility", ["Yes"; "No"]) ].

Definition field_valid (user_inputs : gmap string string)
    (c : string * list string) : bool :=
  match user_inputs !! c.1 with
  | Some v => bool_decide (v ∈ c.2)
  | None => false
  end.

(** A valid analysis input: each field present with a value of its
    enumeration. *)
Definition valid_input (user_inputs : gmap string string) : bool :=
  forallb (field_valid user_inputs) criteria.

(** The score table of each field, in the order of [calculate_scores]. *)
Definition score_tables : list (string * gmap string (gmap string Z)) :=
  [ ("app_type", app_type_scores);
    ("data_structure", data_structure_scores);
    ("scalability", scalability_scores);
    ("transactions", transaction_scores);
    ("schema_flexibility", schema_scores) ].

(** What a criterion value contributes to a candidate's total: the cell of
    the table when the value is one of its keys, zero when it is not. *)
Definition contributes (table : gmap string (gmap string Z))
    (value db : string) (c : Z) : Prop :=
  match table !! value with
  | Some row => row !! db = Some c
  | None => c = 0
  end.

(** The score dictionary with its three entries. *)
Definition score_map (my pg mo : Z) : gmap string Z :=
  list_to_map [("mysql", my); ("postgresql", pg); ("mongodb", mo)].

(** The profile [generate_database_profiles] builds for a candidate. *)
Definition profile_of (entry : ProfileEntry) (s : Z) : DatabaseProfile :=
  {| name := entry_name entry; db_type := entry_type entry; score := s;
     pros := entry_pros entry; cons_ := entry_cons entry |}.

(** ** Scores, as sums of table cells *)

(** The cell a table holds for a value and a candidate, zero when the value
    is not a key of the table. *)
Definition contribution (table : gmap string (gmap string Z))
    (value db : string) : Z :=
  match table !! value with
  | Some row => default 0 (row !! db)
  | None => 0
  end.

(** The sum of the five contributions for the field values
    [a], [d], [s], [t], [f]. *)
Definition total (a d s t f db : string) : Z :=
  contribution app_type_scores a db
  + contribution data_structure_scores d db
  + contribution scalability_scores s db
  + contribution transaction_scores t db
  + contribution schema_scores f db.

(** Every row of a table has a cell between 1 and 4 for each candidate. *)
Definition complete (table : gmap string (gmap string Z)) : Prop :=
  ∀ v row, table !! v = Some row →
    ∃ x y z, row = score_map x y z ∧ 1 ≤ x ≤ 4 ∧ 1 ≤ y ≤ 4 ∧ 1 ≤ z ≤ 4.

(** ** Ranking order *)

(** The three profiles in the order of [databases], before the sort. *)
Definition unranked (my pg mo : Z) : list DatabaseProfile :=
  [ profile_of mysql_entry my; profile_of postgresql_entry pg;
    profile_of mongodb_entry mo ].

(** The display names in the order of [databases]: the priority order. *)
Definition candidate_names : list string := ["MySQL"; "PostgreSQL"; "MongoDB"].

Definition descending (l : list DatabaseProfile) : Prop :=
  StronglySorted (λ p q, score q ≤ score p) l.

(** Two profiles of equal score stand in the order of [candidate_names]. *)
Definition ties_follow_priority (l : list DatabaseProfile) : Prop :=
  ∀ (i j : nat) p q,
    (i < j)%nat → l !! i = Some p → l !! j = Some q → score p = score q →
    ∃ a b : nat, candidate_names !! a = Some (name p) ∧
                 candidate_names !! b = Some (name q) ∧ (a < b)%nat.

(** ** Rules, as the specification words them

    A rule is a trigger on the input together with what it emits; the rules
    that fire are those whose trigger holds, in declaration order. These
    definitions follow the specification and are compared below with
    [identify_tradeoffs] and [suggest_alternatives]. *)

Definition field_is (ui : gmap string string) (key value : string) : bool :=
  bool_decide (ui !! key = Some value).

Definition tradeoff_rules : list ((gmap string string → bool) * Tradeoff) :=
  [ (λ ui, field_is ui "data_structure" "Structured"
           && field_is ui "schema_flexibility" "Yes", tradeoff_schema);
    (λ ui, field_is ui "scalability" "High"
           && field_is ui "transactions" "High", tradeoff_cap);
    (λ ui, field_is ui "app_type" "Analytics"
           && field_is ui "scalability" "High", tradeoff_analytics);
    (λ ui, field_is ui "data_structure" "Unstructured"
           && field_is ui "transactions" "High", tradeoff_document);
    (λ ui, field_is ui "app_type" "Web", tradeoff_read_write) ].

Definition alternative_rules : list ((gmap string string → bool) * Alternative) :=
  [ (λ ui, field_is ui "app_type" "Analytics"
           && field_is ui "scalability" "High", alternative_olap);
    (λ ui, field_is ui "app_type" "Real-time"
           && field_is ui "data_structure" "Unstructured", alternative_streaming);
    (λ ui, field_is ui "scalability" "High"
           && field_is ui "transactions" "High", alternative_distributed_sql);
    (λ ui, field_is ui "data_structure" "Unstructured"
           && field_is ui "app_type" "Analytics", alternative_search);
    (λ ui, field_is ui "app_type" "Real-time", alternative_time_series) ].

Definition fired {A : Type} (rules : list ((gmap string string → bool) * A))
    (ui : gmap string string) : list A :=
  snd <$> List.filter (λ rule, rule.1 ui) rules.

(** ** [generate_text_report] of [app.py]

    The report is a list of entries joined with line feeds. Text outside
    ASCII (the bullet and the two marks) is held as its UTF-8 bytes. The
    [results] dictionary is the one [analyze] returns, so it is the record
    [AnalysisResult]; [user_inputs] is subscripted as a dictionary. *)

(** The one-character string holding a line feed. *)
Definition newline : string := String (Ascii.ascii_of_nat 10) EmptyString.

(** [s * n]. *)
Fixpoint repeat_string (s : string) (n : nat) : string :=
  match n with
  | O => EmptyString
  | S n' => (s ++ repeat_string s n')%string
  end.

(** The entries appended for one profile of the comparison. *)
Definition profile_entries (profile : DatabaseProfile) : list string :=
  [ (newline ++ name profile ++ " (Score: " ++ str (score profile) ++ ")")%string;
    ("Type: " ++ db_type profile)%string;
    (newline ++ "Pros:")%string ]
  ++ ((λ pro, ("  ✓ " ++ pro)%string) <$> pros profile)
  ++ [ (newline ++ "Cons:")%string ]
  ++ ((λ con, ("  ✗ " ++ con)%string) <$> cons_ profile)
  ++ [ "" ].

Definition tradeoff_entries (tradeoff : Tradeoff) : list string :=
  [ (newline ++ title tradeoff)%string; ("  " ++ description tradeoff)%string ].

Definition alternative_entries (alt : Alternative) : list string :=
  [ (newline ++ alt_database alt)%string; ("  " ++ reason alt)%string ].

(** The list [report] as it stands before the final join. *)
Definition report_entries (results : AnalysisResult)
    (user_inputs : gmap string string) : result (list string) :=
  let report : list string :=
    [ repeat_string "=" 70;
      "DATABASE DECISION ASSISTANT - ANALYSIS REPORT";
      repeat_string "=" 70;
      "" ] in
  let report := report ++ [ "USER REQUIREMENTS:"; repeat_string "-" 70 ] in
  v ← getitem user_inputs "app_type";
  let report := report ++ [ ("Application Type: " ++ v)%string ] in
  v ← getitem user_inputs "data_structure";
  let report := report ++ [ ("Data Structure: " ++ v)%string ] in
  v ← getitem user_inputs "scalability";
  let report := report ++ [ ("Scalability: " ++ v)%string ] in
  v ← getitem user_inputs "transactions";
  let report := report ++ [ ("Transactions: " ++ v)%string ] in
  v ← getitem user_inputs "schema_flexibility";
  let report := report ++ [ ("Schema Flexibility: " ++ v)%string ] in
  let report := report ++ [ "" ] in
  let report := report ++ [ "RECOMMENDATION:"; repeat_string "-" 70 ] in
  let rec := recommendation results in
  let report := report ++ [ ("Database: " ++ database rec)%string ] in
  let report := report ++ [ ("Confidence: " ++ confidence rec)%string ] in
  let report := report ++ [ ""; "Reasoning:" ] in
  let report :=
    report ++ ((λ reason, ("  • " ++ reason)%string) <$> reasoning rec) in
  let report := report ++ [ "" ] in
  let report := report ++ [ "DATABASE COMPARISON:"; repeat_string "-" 70 ] in
  let report := report ++ (profiles results ≫= profile_entries) in
  let report :=
    match tradeoffs results with
    | [] => report
    | _ :: _ =>
        report ++ [ "KEY TRADE-OFFS:"; repeat_string "-" 70 ]
        ++ (tradeoffs results ≫= tradeoff_entries) ++ [ "" ]
    end in
  let report :=
    match alternatives results with
    | [] => report
    | _ :: _ =>
        report ++ [ "ALTERNATIVE DATABASES:"; repeat_string "-" 70 ]
        ++ (alternatives results ≫= alternative_entries) ++ [ "" ]
    end in
  let report :=
    report ++ [ repeat_string "=" 70; "End of Report"; repeat_string "=" 70 ] in
  Ok report.

(** [generate_text_report]: the entries joined by line feeds. *)
Definition generate_text_report (results : AnalysisResult)
    (user_inputs : gmap string string) : result string :=
  report ← report_entries results user_inputs;
  Ok (String.concat newline report).

(** The first twelve entries: the title block and the requirements. *)
Definition requirement_entries (a d s t f : string) : list string :=
  [ repeat_string "=" 70;
    "DATABASE DECISION ASSISTANT - ANALYSIS REPORT";
    repeat_string "=" 70;
    "";
    "USER REQUIREMENTS:";
    repeat_string "-" 70;
    ("Application Type: " ++ a)%string;
    ("Data Structure: " ++ d)%string;
    ("Scalability: " ++ s)%string;
    ("Transactions: " ++ t)%string;
    ("Schema Flexibility: " ++ f)%string;
    "" ].

(** The four entries that state the recommendation. *)
Definition recommendation_entries (rec : Recommendation) : list string :=
  [ "RECOMMENDATION:"; repeat_string "-" 70;
    ("Database: " ++ database rec)%string;
    ("Confidence: " ++ confidence rec)%string ].

(** The entries from the reasoning to the last optional section. *)
Definition body_entries (results : AnalysisResult) : list string :=
  [ ""; "Reasoning:" ]
  ++ ((λ reason, ("  • " ++ reason)%string)
        <$> reasoning (recommendation results))
  ++ [ ""; "DATABASE COMPARISON:"; repeat_string "-" 70 ]
  ++ (profiles results ≫= profile_entries)
  ++ match tradeoffs results with
     | [] => []
     | _ :: _ =>
         [ "KEY TRADE-OFFS:"; repeat_string "-" 70 ]
         ++ (tradeoffs results ≫= tradeoff_entries) ++ [ "" ]
     end
  ++ match alternatives results with
     | [] => []
     | _ :: _ =>
         [ "ALTERNATIVE DATABASES:"; repeat_string "-" 70 ]
         ++ (alternatives results ≫= alternative_entries) ++ [ "" ]
     end.

(** The three closing entries. *)
Definition closing_entries : list string :=
  [ repeat_string "=" 70; "End of Report"; repeat_string "=" 70 ].

(** ** Which fields a computation reads *)

(** The first key of [keys] that the dictionary lacks. *)
Definition missing_key {V : Type} (keys : list string) (d : gmap string V)
  : option string :=
  find (λ k, negb (contains d k)) keys.

(** The fields the branch of [generate_recommendation] for a top candidate
    subscripts, in the order it does. *)
Definition fields_read (top_name : string) : list string :=
  if String.eqb top_name "MySQL" then
    ["transactions"; "scalability"; "app_type"]
  else if String.eqb top_name "PostgreSQL" then
    ["app_type"; "data_structure"; "transactions"; "schema_flexibility"]
  else
    ["scalability"; "schema_flexibility"; "app_type"; "data_structure"].

(** The [if]/[elif]/[else] of [generate_recommendation] on the top
    candidate's name. *)
Definition candidate_reasoning (top_name : string)
    (user_inputs : gmap string string) : result (list string) :=
  if String.eqb top_name "MySQL" then mysql_reasoning user_inputs
  else if String.eqb top_name "PostgreSQL" then postgresql_reasoning user_inputs
  else mongodb_reasoning user_inputs.

#[global] Instance Tradeoff_eq_dec : EqDecision Tradeoff.
Proof. solve_decision. Defined.

#[global] Instance Alternative_eq_dec : EqDecision Alternative.
Proof. solve_decision. Defined.

(** The opening sentence of each branch of [generate_recommendation]. *)
Definition opening_sentence (top_name : string) : string :=
  if String.eqb top_name "MySQL" then
    "MySQL is recommended for your traditional web application needs with structured data."
  else if String.eqb top_name "PostgreSQL" then
    "PostgreSQL offers the best balance of advanced features for your requirements."
  else
    "MongoDB is the best choice for your scalability and flexibility needs.".

(** * Properties *)

(** ** Subscripting *)

Lemma getitem_Some {V : Type} (d : gmap string V) k v :
  d !! k = Some v → getitem d k = Ok v.
Proof. intros H. unfold getitem. by rewrite H. Qed.

Lemma getitem_None {V : Type} (d : gmap string V) k :
  d !! k = None → getitem d k = Raise (KeyError k).
Proof. intros H. unfold getitem. by rewrite H. Qed.

Lemma item_is_Some (d : gmap string string) k x v :
  d !! k = Some x → item_is d k v = Ok (String.eqb x v).
Proof. intros H. unfold item_is. by rewrite (getitem_Some _ _ _ H). Qed.

Lemma item_is_None (d : gmap string string) k v :
  d !! k = None → item_is d k v = Raise (KeyError k).
Proof. intros H. unfold item_is. by rewrite (getitem_None _ _ H). Qed.

Lemma contains_true {V : Type} (d : gmap string V) k :
  contains d k = true ↔ is_Some (d !! k).
Proof.
  unfold contains. destruct (d !! k) eqn:E; split; intros H; eauto.
  - discriminate.
  - by destruct H.
Qed.

Lemma has_all_keys_lookup (ui : gmap string string) :
  has_all_keys ui = true →
  ∃ a d s t f,
    ui !! "app_type" = Some a ∧ ui !! "data_structure" = Some d ∧
    ui !! "scalability" = Some s ∧ ui !! "transactions" = Some t ∧
    ui !! "schema_flexibility" = Some f.
Proof.
  unfold has_all_keys. cbn [forallb input_keys].
  rewrite !andb_true_iff, !contains_true.
  intros ([a Ha] & [d Hd] & [s Hs] & [t Ht] & [f Hf] & _).
  by exists a, d, s, t, f.
Qed.

Lemma field_valid_lookup (ui : gmap string string) key enum :
  field_valid ui (key, enum) = true → ∃ v, ui !! key = Some v ∧ v ∈ enum.
Proof.
  unfold field_valid. cbn [fst snd]. destruct (ui !! key) as [v|]; [|done].
  intros H%bool_decide_eq_true. eauto.
Qed.

Lemma valid_input_lookup (ui : gmap string string) :
  valid_input ui = true →
  ∃ a d s t f,
    (ui !! "app_type" = Some a ∧ a ∈ ["Web"; "Analytics"; "Real-time"]) ∧
    (ui !! "data_structure" = Some d ∧
       d ∈ ["Structured"; "Semi-structured"; "Unstructured"]) ∧
    (ui !! "scalability" = Some s ∧ s ∈ ["Low"; "Medium"; "High"]) ∧
    (ui !! "transactions" = Some t ∧ t ∈ ["Low"; "High"]) ∧
    (ui !! "schema_flexibility" = Some f ∧ f ∈ ["Yes"; "No"]).
Proof.
  unfold valid_input. cbn [forallb criteria]. rewrite !andb_true_iff.
  intros (Ha & Hd & Hs & Ht & Hf & _).
  apply field_valid_lookup in Ha as [a Ha], Hd as [d Hd], Hs as [s Hs],
    Ht as [t Ht], Hf as [f Hf].
  by exists a, d, s, t, f.
Qed.

Lemma valid_input_has_all_keys (ui : gmap string string) :
  valid_input ui = true → has_all_keys ui = true.
Proof.
  intros (a & d & s & t & f & [Ha _] & [Hd _] & [Hs _] & [Ht _] & [Hf _])
    %valid_input_lookup.
  unfold has_all_keys. cbn [forallb input_keys]. unfold contains.
  by rewrite Ha, Hd, Hs, Ht, Hf.
Qed.

(** ** The score tables *)

Ltac table_cases H :=
  apply elem_of_list_to_map_2 in H;
  repeat (apply elem_of_cons in H as [H | H]; [injection H as -> -> |]);
  [.. | by apply elem_of_nil in H].

Lemma score_tables_complete key table :
  (key, table) ∈ score_tables → complete table.
Proof.
  unfold score_tables. intros Hin.
  repeat (apply elem_of_cons in Hin as [Hin | Hin]; [injection Hin as -> -> |]);
    [.. | by apply elem_of_nil in Hin];
    intros v row H; table_cases H;
    eexists _, _, _; (split; [reflexivity | lia]).
Qed.

(** The keys of a field's table are the values of its enumeration. *)
Lemma score_tables_keys key table enum v :
  (key, table) ∈ score_tables → (key, enum) ∈ criteria →
  v ∈ enum → is_Some (table !! v).
Proof.
  unfold score_tables, criteria. intros Ht Hc Hv.
  repeat (apply elem_of_cons in Ht as [Ht | Ht]; [injection Ht as -> -> |]);
    [.. | by apply elem_of_nil in Ht];
    (repeat (apply elem_of_cons in Hc as [Hc | Hc]; [simplify_eq |]);
     [.. | by apply elem_of_nil in Hc]);
    (repeat (apply elem_of_cons in Hv as [-> | Hv]; [by eexists |]);
     by apply elem_of_nil in Hv).
Qed.

Lemma score_map_unfold my pg mo :
  score_map my pg mo
  = <["mysql" := my]> (<["postgresql" := pg]> (<["mongodb" := mo]> ∅)).
Proof. reflexivity. Qed.

Lemma score_map_lookup my pg mo db :
  db ∈ databases →
  score_map my pg mo !! db
  = Some (if String.eqb db "mysql" then my
          else if String.eqb db "postgresql" then pg else mo).
Proof.
  unfold databases. intros Hdb.
  repeat (apply elem_of_cons in Hdb as [-> | Hdb]; [by vm_compute |]).
  by apply elem_of_nil in Hdb.
Qed.

Lemma contribution_contributes table v db :
  complete table → db ∈ databases →
  contributes table v db (contribution table v db).
Proof.
  intros Hc Hdb. unfold contributes, contribution.
  destruct (table !! v) as [row|] eqn:E; [|done].
  destruct (Hc _ _ E) as (x & y & z & -> & _).
  by rewrite (score_map_lookup _ _ _ _ Hdb).
Qed.

Lemma contribution_bounds table v db :
  complete table → db ∈ databases → 0 ≤ contribution table v db ≤ 4.
Proof.
  intros Hc Hdb. unfold contribution.
  destruct (table !! v) as [row|] eqn:E; [|lia].
  destruct (Hc _ _ E) as (x & y & z & -> & Hx & Hy & Hz).
  rewrite (score_map_lookup _ _ _ _ Hdb). cbn.
  destruct (String.eqb db "mysql"), (String.eqb db "postgresql"); lia.
Qed.

Lemma contribution_bounds_present table v db :
  complete table → db ∈ databases → is_Some (table !! v) →
  1 ≤ contribution table v db ≤ 4.
Proof.
  intros Hc Hdb [row E]. unfold contribution. rewrite E.
  destruct (Hc _ _ E) as (x & y & z & -> & Hx & Hy & Hz).
  rewrite (score_map_lookup _ _ _ _ Hdb). cbn.
  destruct (String.eqb db "mysql"), (String.eqb db "postgresql"); lia.
Qed.

(** ** [calculate_scores] *)

Lemma add_criterion_missing table key ui sc :
  ui !! key = None → add_criterion table key ui sc = Raise (KeyError key).
Proof. intros H. unfold add_criterion. by rewrite (getitem_None _ _ H). Qed.

Lemma getitem_insert_eq {V : Type} (d : gmap string V) k x :
  getitem (<[k := x]> d) k = Ok x.
Proof. apply getitem_Some, lookup_insert_eq. Qed.

Lemma getitem_insert_ne {V : Type} (d : gmap string V) k k' x :
  k ≠ k' → getitem (<[k := x]> d) k' = getitem d k'.
Proof. intros H. unfold getitem. by rewrite lookup_insert_ne. Qed.

(** Runs the straight-line part of a computation whose dictionary lookups
    are all decided by the context. *)
Ltac run_getitem :=
  repeat first
    [ rewrite getitem_insert_eq
    | rewrite getitem_insert_ne by done
    | erewrite getitem_Some by eassumption
    | progress cbn [mbind result_bind] ].

Lemma add_criterion_spec table key ui v my pg mo :
  complete table → ui !! key = Some v →
  add_criterion table key ui (score_map my pg mo)
  = Ok (score_map (my + contribution table v "mysql")
                  (pg + contribution table v "postgresql")
                  (mo + contribution table v "mongodb")).
Proof.
  intros Hc Hv. unfold add_criterion, contribution, contains.
  rewrite (getitem_Some _ _ _ Hv). cbn [mbind result_bind].
  destruct (table !! v) as [row|] eqn:E.
  - destruct (Hc _ _ E) as (x & y & z & -> & _).
    cbn [for_each databases]. rewrite !score_map_unfold.
    run_getitem. by vm_compute.
  - by rewrite !Z.add_0_r.
Qed.

Lemma app_type_scores_complete : complete app_type_scores.
Proof. apply (score_tables_complete "app_type"). unfold score_tables. set_solver. Qed.

Lemma data_structure_scores_complete : complete data_structure_scores.
Proof.
  apply (score_tables_complete "data_structure"). unfold score_tables. set_solver.
Qed.

Lemma scalability_scores_complete : complete scalability_scores.
Proof.
  apply (score_tables_complete "scalability"). unfold score_tables. set_solver.
Qed.

Lemma transaction_scores_complete : complete transaction_scores.
Proof.
  apply (score_tables_complete "transactions"). unfold score_tables. set_solver.
Qed.

Lemma schema_scores_complete : complete schema_scores.
Proof.
  apply (score_tables_complete "schema_flexibility"). unfold score_tables.
  set_solver.
Qed.

Create HintDb tables.
#[local] Hint Resolve app_type_scores_complete data_structure_scores_complete
  scalability_scores_complete transaction_scores_complete
  schema_scores_complete : tables.

Lemma calculate_scores_spec ui a d s t f :
  ui !! "app_type" = Some a → ui !! "data_structure" = Some d →
  ui !! "scalability" = Some s → ui !! "transactions" = Some t →
  ui !! "schema_flexibility" = Some f →
  calculate_scores ui
  = Ok (score_map (total a d s t f "mysql") (total a d s t f "postgresql")
                  (total a d s t f "mongodb")).
Proof.
  intros Ha Hd Hs Ht Hf. unfold calculate_scores.
  change (list_to_map ((λ db, (db, 0)) <$> databases)) with (score_map 0 0 0).
  rewrite (add_criterion_spec _ _ _ _ _ _ _ app_type_scores_complete Ha).
  cbn [mbind result_bind].
  rewrite (add_criterion_spec _ _ _ _ _ _ _ data_structure_scores_complete Hd).
  cbn [mbind result_bind].
  rewrite (add_criterion_spec _ _ _ _ _ _ _ scalability_scores_complete Hs).
  cbn [mbind result_bind].
  rewrite (add_criterion_spec _ _ _ _ _ _ _ transaction_scores_complete Ht).
  cbn [mbind result_bind].
  rewrite (add_criterion_spec _ _ _ _ _ _ _ schema_scores_complete Hf).
  cbn [mbind result_bind]. unfold total. by rewrite !Z.add_0_l.
Qed.

(** A missing field makes [calculate_scores] stop at the first lookup of
    that field. *)
Lemma calculate_scores_missing ui k :
  first_missing ui = Some k → calculate_scores ui = Raise (KeyError k).
Proof.
  unfold first_missing. cbn [find input_keys]. unfold calculate_scores.
  change (list_to_map ((λ db, (db, 0)) <$> databases)) with (score_map 0 0 0).
  unfold contains at 1.
  destruct (ui !! "app_type") as [a|] eqn:Ha; cbn [negb];
    [| intros [= <-]; by rewrite add_criterion_missing].
  rewrite (add_criterion_spec _ _ _ _ _ _ _ app_type_scores_complete Ha).
  cbn [mbind result_bind]. unfold contains at 1.
  destruct (ui !! "data_structure") as [d|] eqn:Hd; cbn [negb];
    [| intros [= <-]; by rewrite add_criterion_missing].
  rewrite (add_criterion_spec _ _ _ _ _ _ _ data_structure_scores_complete Hd).
  cbn [mbind result_bind]. unfold contains at 1.
  destruct (ui !! "scalability") as [s|] eqn:Hs; cbn [negb];
    [| intros [= <-]; by rewrite add_criterion_missing].
  rewrite (add_criterion_spec _ _ _ _ _ _ _ scalability_scores_complete Hs).
  cbn [mbind result_bind]. unfold contains at 1.
  destruct (ui !! "transactions") as [t|] eqn:Ht; cbn [negb];
    [| intros [= <-]; by rewrite add_criterion_missing].
  rewrite (add_criterion_spec _ _ _ _ _ _ _ transaction_scores_complete Ht).
  cbn [mbind result_bind]. unfold contains at 1.
  destruct (ui !! "schema_flexibility") as [f|] eqn:Hf; cbn [negb];
    [| intros [= <-]; by rewrite add_criterion_missing].
  discriminate.
Qed.

(** ** Ranking *)

Lemma insert_by_score_perm p l : insert_by_score p l ≡ₚ p :: l.
Proof.
  induction l as [|q l IH]; cbn [insert_by_score]; [done|].
  destruct (score p <? score q); [|done].
  rewrite IH. apply Permutation_swap.
Qed.

Lemma sort_by_score_desc_perm l : sort_by_score_desc l ≡ₚ l.
Proof.
  induction l as [|p l IH]; cbn [sort_by_score_desc]; [done|].
  by rewrite insert_by_score_perm, IH.
Qed.

Lemma insert_by_score_descending p l :
  descending l → descending (insert_by_score p l).
Proof.
  unfold descending. induction 1 as [|q l Hl IH Hq]; cbn [insert_by_score].
  - repeat constructor.
  - destruct (Z.ltb_spec (score p) (score q)) as [Hlt | Hge].
    + constructor; [done|].
      rewrite insert_by_score_perm. constructor; [lia | done].
    + constructor; [by constructor|].
      constructor; [lia|].
      eapply Forall_impl; [exact Hq|]. cbn. intros; lia.
Qed.

Lemma sort_by_score_desc_descending l : descending (sort_by_score_desc l).
Proof.
  induction l as [|p l IH]; cbn [sort_by_score_desc].
  - constructor.
  - by apply insert_by_score_descending.
Qed.

(** Stability: among the profiles of any one score, the sort keeps the
    order of the list it was given. *)
Lemma insert_by_score_stable k p l :
  filter (λ q, score q = k) (insert_by_score p l)
  = filter (λ q, score q = k) (p :: l).
Proof.
  induction l as [|q l IH]; cbn [insert_by_score]; [done|].
  destruct (Z.ltb_spec (score p) (score q)) as [Hlt | Hge]; [|done].
  rewrite (filter_cons _ q), IH, !filter_cons.
  repeat case_decide; try done; lia.
Qed.

Lemma sort_by_score_desc_stable k l :
  filter (λ q, score q = k) (sort_by_score_desc l)
  = filter (λ q, score q = k) l.
Proof.
  induction l as [|p l IH]; cbn [sort_by_score_desc]; [done|].
  by rewrite insert_by_score_stable, !filter_cons, IH.
Qed.

Lemma generate_database_profiles_spec my pg mo :
  generate_database_profiles (score_map my pg mo)
  = Ok (sort_by_score_desc (unranked my pg mo)).
Proof.
  unfold generate_database_profiles. cbn [for_each databases].
  unfold db_profiles. rewrite score_map_unfold. cbn [list_to_map foldr fst snd].
  run_getitem. reflexivity.
Qed.

Lemma unranked_length my pg mo :
  length (sort_by_score_desc (unranked my pg mo)) = 3%nat.
Proof. by rewrite sort_by_score_desc_perm. Qed.

(** With three candidates the sort is decided by three comparisons; in each
    outcome two profiles of equal score stand in the order of
    [candidate_names]. *)
Lemma unranked_ties my pg mo (i j : nat) p q :
  (i < j)%nat →
  sort_by_score_desc (unranked my pg mo) !! i = Some p →
  sort_by_score_desc (unranked my pg mo) !! j = Some q →
  score p = score q →
  ∃ a b : nat, candidate_names !! a = Some (name p) ∧
               candidate_names !! b = Some (name q) ∧ (a < b)%nat.
Proof.
  unfold unranked, profile_of.
  cbn [sort_by_score_desc insert_by_score score].
  intros Hij Hp Hq Heq.
  destruct (Z.ltb_spec pg mo), (Z.ltb_spec my mo), (Z.ltb_spec my pg);
    cbn [insert_by_score score] in Hp, Hq;
    repeat match type of Hp with
           | context [Z.ltb ?x ?y] => destruct (Z.ltb_spec x y)
           end;
    try lia;
    destruct i as [|[|[|i]]]; try discriminate Hp;
    destruct j as [|[|[|j]]]; try discriminate Hq; try lia;
    injection Hp as <-; injection Hq as <-; cbn [score] in Heq; try lia;
    cbn [name entry_name mysql_entry postgresql_entry mongodb_entry];
    first [ by exists 0%nat, 1%nat; repeat split; auto
          | by exists 0%nat, 2%nat; repeat split; auto
          | by exists 1%nat, 2%nat; repeat split; auto ].
Qed.

(** ** [generate_recommendation] *)

(** The sentences of the top candidate's branch are computed whenever the
    five fields are present, and none of them is a close competition note. *)
Lemma candidate_reasoning_total ui top_name :
  has_all_keys ui = true →
  ∃ base,
    (if String.eqb top_name "MySQL" then mysql_reasoning ui
     else if String.eqb top_name "PostgreSQL" then postgresql_reasoning ui
     else mongodb_reasoning ui) = Ok base
    ∧ Forall (λ sentence, String.prefix "Note: " sentence = false) base.
Proof.
  intros (a & d & s & t & f & Ha & Hd & Hs & Ht & Hf)%has_all_keys_lookup.
  unfold mysql_reasoning, postgresql_reasoning, mongodb_reasoning.
  rewrite !(item_is_Some _ _ _ _ Ha), !(item_is_Some _ _ _ _ Hd),
    !(item_is_Some _ _ _ _ Hs), !(item_is_Some _ _ _ _ Ht),
    !(item_is_Some _ _ _ _ Hf).
  cbn [mbind result_bind].
  destruct (String.eqb top_name "MySQL"); [|destruct (String.eqb top_name "PostgreSQL")];
    eexists; (split; [reflexivity|]);
    repeat match goal with
           | |- context [String.eqb ?x ?y] => destruct (String.eqb x y)
           end;
    cbn [append_if negb app]; by repeat constructor.
Qed.

Lemma generate_recommendation_spec p0 rest ui :
  has_all_keys ui = true →
  ∃ base,
    Forall (λ sentence, String.prefix "Note: " sentence = false) base ∧
    generate_recommendation (p0 :: rest) ui
    = Ok {| database := name p0;
            confidence :=
              (let score_diff :=
                 match rest with p1 :: _ => score p0 - score p1 | [] => 5 end in
               if 3 <? score_diff then "High"
               else if 1 <? score_diff then "Medium" else "Low");
            reasoning :=
              match rest with
              | p1 :: _ =>
                  append_if (score p0 - score p1 <=? 2) (closeness_note p1 p0) base
              | [] => base
              end |}.
Proof.
  intros Hk. destruct (candidate_reasoning_total ui (name p0) Hk) as (base & Hb & Hn).
  exists base. split; [done|].
  unfold generate_recommendation, list_getitem. cbn [lookup list_lookup].
  cbn [mbind result_bind]. rewrite Hb. cbn [mbind result_bind].
  destruct rest as [|p1 rest]; reflexivity.
Qed.

Lemma generate_recommendation_empty ui :
  generate_recommendation [] ui = Raise IndexError.
Proof. reflexivity. Qed.

(** ** Trade-off and alternative rules *)

Lemma field_is_eqb ui key x v :
  ui !! key = Some x → field_is ui key v = String.eqb x v.
Proof.
  intros H. unfold field_is. rewrite H.
  destruct (String.eqb_spec x v) as [-> | Hne].
  - by apply bool_decide_eq_true.
  - apply bool_decide_eq_false. congruence.
Qed.

Ltac rules_by_cases Ha Hd Hs Ht Hf :=
  rewrite ?(item_is_Some _ _ _ _ Ha), ?(item_is_Some _ _ _ _ Hd),
    ?(item_is_Some _ _ _ _ Hs), ?(item_is_Some _ _ _ _ Ht),
    ?(item_is_Some _ _ _ _ Hf);
  rewrite ?(field_is_eqb _ _ _ _ Ha), ?(field_is_eqb _ _ _ _ Hd),
    ?(field_is_eqb _ _ _ _ Hs), ?(field_is_eqb _ _ _ _ Ht),
    ?(field_is_eqb _ _ _ _ Hf);
  repeat match goal with
         | |- context [String.eqb ?x ?y] => destruct (String.eqb x y)
         end;
  reflexivity.

Lemma identify_tradeoffs_spec ui :
  has_all_keys ui = true →
  identify_tradeoffs ui = Ok (fired tradeoff_rules ui).
Proof.
  intros (a & d & s & t & f & Ha & Hd & Hs & Ht & Hf)%has_all_keys_lookup.
  unfold identify_tradeoffs, fired, tradeoff_rules, py_and.
  cbn [List.filter fst snd].
  rules_by_cases Ha Hd Hs Ht Hf.
Qed.

Lemma suggest_alternatives_spec ui :
  has_all_keys ui = true →
  suggest_alternatives ui = Ok (fired alternative_rules ui).
Proof.
  intros (a & d & s & t & f & Ha & Hd & Hs & Ht & Hf)%has_all_keys_lookup.
  unfold suggest_alternatives, fired, alternative_rules, py_and.
  cbn [List.filter fst snd].
  rules_by_cases Ha Hd Hs Ht Hf.
Qed.

(** ** [analyze] *)

(** [analyze] reads its argument only through the five fields. *)
Lemma analyze_ext ui1 ui2 :
  (∀ k, k ∈ input_keys → ui1 !! k = ui2 !! k) → analyze ui1 = analyze ui2.
Proof.
  intros H.
  assert (Ha := H "app_type" ltac:(unfold input_keys; set_solver)).
  assert (Hd := H "data_structure" ltac:(unfold input_keys; set_solver)).
  assert (Hs := H "scalability" ltac:(unfold input_keys; set_solver)).
  assert (Ht := H "transactions" ltac:(unfold input_keys; set_solver)).
  assert (Hf := H "schema_flexibility" ltac:(unfold input_keys; set_solver)).
  unfold analyze, calculate_scores, add_criterion, identify_tradeoffs,
    suggest_alternatives, generate_recommendation, mysql_reasoning,
    postgresql_reasoning, mongodb_reasoning, item_is, getitem.
  by rewrite Ha, Hd, Hs, Ht, Hf.
Qed.

Lemma analyze_spec ui a d s t f :
  ui !! "app_type" = Some a → ui !! "data_structure" = Some d →
  ui !! "scalability" = Some s → ui !! "transactions" = Some t →
  ui !! "schema_flexibility" = Some f →
  ∃ rec,
    generate_recommendation
      (sort_by_score_desc
         (unranked (total a d s t f "mysql") (total a d s t f "postgresql")
                   (total a d s t f "mongodb"))) ui = Ok rec ∧
    analyze ui
    = Ok {| profiles :=
              sort_by_score_desc
                (unranked (total a d s t f "mysql")
                          (total a d s t f "postgresql")
                          (total a d s t f "mongodb"));
            tradeoffs := fired tradeoff_rules ui;
            recommendation := rec;
            alternatives := fired alternative_rules ui;
            scores := score_map (total a d s t f "mysql")
                                (total a d s t f "postgresql")
                                (total a d s t f "mongodb") |}.
Proof.
  intros Ha Hd Hs Ht Hf.
  assert (Hk : has_all_keys ui = true).
  { unfold has_all_keys. cbn [forallb input_keys]. unfold contains.
    by rewrite Ha, Hd, Hs, Ht, Hf. }
  unfold analyze.
  rewrite (calculate_scores_spec _ _ _ _ _ _ Ha Hd Hs Ht Hf).
  cbn [mbind result_bind]. rewrite generate_database_profiles_spec.
  cbn [mbind result_bind]. rewrite (identify_tradeoffs_spec _ Hk).
  cbn [mbind result_bind]. rewrite (suggest_alternatives_spec _ Hk).
  pose proof (unranked_length (total a d s t f "mysql")
    (total a d s t f "postgresql") (total a d s t f "mongodb")) as Hlen.
  destruct (sort_by_score_desc _) as [|p0 rest]; [discriminate Hlen|].
  destruct (generate_recommendation_spec p0 rest ui Hk) as (base & _ & Hrec).
  rewrite Hrec. cbn [mbind result_bind]. eexists. split; reflexivity.
Qed.

Lemma total_contributes a d s t f db :
  db ∈ databases →
  contributes app_type_scores a db (contribution app_type_scores a db) ∧
  contributes data_structure_scores d db (contribution data_structure_scores d db) ∧
  contributes scalability_scores s db (contribution scalability_scores s db) ∧
  contributes transaction_scores t db (contribution transaction_scores t db) ∧
  contributes schema_scores f db (contribution schema_scores f db).
Proof.
  intros Hdb. repeat split; apply contribution_contributes; auto with tables.
Qed.

Lemma score_map_dom my pg mo :
  dom (score_map my pg mo) = list_to_set databases.
Proof.
  rewrite score_map_unfold, !dom_insert_L, dom_empty_L.
  unfold databases. cbn [list_to_set]. set_solver.
Qed.

(** * The claims *)

Lemma first_missing_None ui :
  first_missing ui = None ↔ has_all_keys ui = true.
Proof.
  unfold first_missing, has_all_keys. cbn [find forallb input_keys].
  repeat (destruct (contains ui _); cbn [negb andb]; [|by split]).
  by split.
Qed.

Lemma first_missing_Some ui k :
  first_missing ui = Some k → k ∈ input_keys ∧ ui !! k = None.
Proof.
  unfold first_missing. intros H. apply find_some in H as [Hin Hk].
  split; [by apply list_elem_of_In|].
  unfold contains in Hk. by destruct (ui !! k).
Qed.

(** C1 (as amended). A dictionary that lacks one of the five fields makes
    [analyze] raise [KeyError] for the first field it lacks, in the order
    app_type, data_structure, scalability, transactions, schema_flexibility,
    and no result is produced. A dictionary that has the five fields is
    never rejected, whatever their values: [analyze] returns a result. *)
Theorem analyze_raises_only_on_missing_field (ui : gmap string string) :
  match first_missing ui with
  | Some k =>
      has_all_keys ui = false ∧ k ∈ input_keys ∧ ui !! k = None ∧
      analyze ui = Raise (KeyError k)
  | None => has_all_keys ui = true ∧ ∃ r, analyze ui = Ok r
  end.
Proof.
  destruct (first_missing ui) as [k|] eqn:E.
  - destruct (first_missing_Some _ _ E) as [Hin Hk].
    repeat split; [| done | done |].
    + destruct (has_all_keys ui) eqn:Hall; [|done].
      apply first_missing_None in Hall. congruence.
    + unfold analyze. by rewrite (calculate_scores_missing _ _ E).
  - apply first_missing_None in E as Hall. split; [done|].
    destruct (has_all_keys_lookup _ Hall) as (a & d & s & t & f & Ha & Hd & Hs & Ht & Hf).
    destruct (analyze_spec _ _ _ _ _ _ Ha Hd Hs Ht Hf) as (rec & _ & Hr).
    eauto.
Qed.

(** C1 (as stated) fails: the application type "Mobile" is outside the
    enumeration, yet [analyze] raises nothing and returns a result in which
    the application type has contributed no points; and when the field is
    absent altogether the exception is the [KeyError] of the dictionary
    lookup. *)
Lemma analyze_accepts_unknown_app_type :
  valid_input (make_inputs "Mobile" "Structured" "Low" "High" "No") = false ∧
  (∃ r, analyze (make_inputs "Mobile" "Structured" "Low" "High" "No") = Ok r ∧
        scores r = score_map 15 15 7 ∧
        database (recommendation r) = "MySQL") ∧
  analyze (delete "app_type" (make_inputs "Mobile" "Structured" "Low" "High" "No"))
  = Raise (KeyError "app_type").
Proof.
  split; [by vm_compute|]. split; [|by vm_compute].
  eexists. split; [by vm_compute|]. split; by vm_compute.
Qed.

(** C2. For the input Web / Structured / Low / High / No the scores are
    MySQL 18, PostgreSQL 18, MongoDB 9; MySQL is ranked first, ahead of
    PostgreSQL, by the tie-break; the gap is 0 and the confidence Low; the
    trade-offs are exactly the read-versus-write trade-off of the Web rule;
    and the last reasoning entry is the closeness note naming PostgreSQL. *)
Theorem scenario_web_structured :
  ∃ r, analyze (make_inputs "Web" "Structured" "Low" "High" "No") = Ok r ∧
    scores r = list_to_map [("mysql", 18); ("postgresql", 18); ("mongodb", 9)] ∧
    (λ p, (name p, score p)) <$> profiles r
      = [("MySQL", 18); ("PostgreSQL", 18); ("MongoDB", 9)] ∧
    database (recommendation r) = "MySQL" ∧
    confidence (recommendation r) = "Low" ∧
    tradeoffs r = [tradeoff_read_write] ∧
    title tradeoff_read_write = "Read Optimization vs Write Optimization" ∧
    fired tradeoff_rules (make_inputs "Web" "Structured" "Low" "High" "No")
      = [tradeoff_read_write] ∧
    last (reasoning (recommendation r))
      = Some ("Note: PostgreSQL scored closely (18 vs 18). "
              ++ "Consider evaluating both options based on team expertise.")%string.
Proof.
  eexists. split; [by vm_compute|].
  repeat split; by vm_compute.
Qed.

(** C5. For every valid input [calculate_scores] returns, and each
    candidate's total is the sum of five contributions, one per criterion,
    each the cell of that criterion's table for the chosen value, each
    between 0 and 4; the total lies between 5 and 20. *)
Theorem score_bounds (ui : gmap string string) :
  valid_input ui = true →
  ∃ a d s t f sc,
    ui !! "app_type" = Some a ∧ ui !! "data_structure" = Some d ∧
    ui !! "scalability" = Some s ∧ ui !! "transactions" = Some t ∧
    ui !! "schema_flexibility" = Some f ∧
    calculate_scores ui = Ok sc ∧
    ∀ db, db ∈ databases →
      ∃ c1 c2 c3 c4 c5,
        contributes app_type_scores a db c1 ∧
        contributes data_structure_scores d db c2 ∧
        contributes scalability_scores s db c3 ∧
        contributes transaction_scores t db c4 ∧
        contributes schema_scores f db c5 ∧
        0 ≤ c1 ≤ 4 ∧ 0 ≤ c2 ≤ 4 ∧ 0 ≤ c3 ≤ 4 ∧ 0 ≤ c4 ≤ 4 ∧ 0 ≤ c5 ≤ 4 ∧
        sc !! db = Some (c1 + c2 + c3 + c4 + c5) ∧
        5 ≤ c1 + c2 + c3 + c4 + c5 ≤ 20.
Proof.
  intros Hv.
  destruct (valid_input_lookup _ Hv)
    as (a & d & s & t & f & [Ha Ha'] & [Hd Hd'] & [Hs Hs'] & [Ht Ht'] & [Hf Hf']).
  exists a, d, s, t, f. eexists. repeat (split; [done|]).
  split; [by apply calculate_scores_spec|].
  intros db Hdb.
  destruct (total_contributes a d s t f db Hdb) as (C1 & C2 & C3 & C4 & C5).
  assert (is_Some (app_type_scores !! a)) as K1
    by (apply (score_tables_keys "app_type" _ _ _
          (list_elem_of_lookup_2 score_tables 0%nat _ eq_refl)
          (list_elem_of_lookup_2 criteria 0%nat _ eq_refl) Ha')).
  assert (is_Some (data_structure_scores !! d)) as K2
    by (apply (score_tables_keys "data_structure" _ _ _
          (list_elem_of_lookup_2 score_tables 1%nat _ eq_refl)
          (list_elem_of_lookup_2 criteria 1%nat _ eq_refl) Hd')).
  assert (is_Some (scalability_scores !! s)) as K3
    by (apply (score_tables_keys "scalability" _ _ _
          (list_elem_of_lookup_2 score_tables 2%nat _ eq_refl)
          (list_elem_of_lookup_2 criteria 2%nat _ eq_refl) Hs')).
  assert (is_Some (transaction_scores !! t)) as K4
    by (apply (score_tables_keys "transactions" _ _ _
          (list_elem_of_lookup_2 score_tables 3%nat _ eq_refl)
          (list_elem_of_lookup_2 criteria 3%nat _ eq_refl) Ht')).
  assert (is_Some (schema_scores !! f)) as K5
    by (apply (score_tables_keys "schema_flexibility" _ _ _
          (list_elem_of_lookup_2 score_tables 4%nat _ eq_refl)
          (list_elem_of_lookup_2 criteria 4%nat _ eq_refl) Hf')).
  pose proof (contribution_bounds_present _ a db app_type_scores_complete Hdb K1).
  pose proof (contribution_bounds_present _ d db data_structure_scores_complete Hdb K2).
  pose proof (contribution_bounds_present _ s db scalability_scores_complete Hdb K3).
  pose proof (contribution_bounds_present _ t db transaction_scores_complete Hdb K4).
  pose proof (contribution_bounds_present _ f db schema_scores_complete Hdb K5).
  eexists _, _, _, _, _. repeat (split; [eassumption || lia|]).
  split; [|lia].
  rewrite (score_map_lookup _ _ _ _ Hdb). unfold total.
  unfold databases in Hdb.
  repeat (apply elem_of_cons in Hdb as [-> | Hdb]; [reflexivity |]).
  by apply elem_of_nil in Hdb.
Qed.

Lemma score_bounds_witness :
  ∃ a d s t f sc,
    make_inputs "Analytics" "Semi-structured" "High" "High" "Yes" !! "app_type"
      = Some a ∧
    make_inputs "Analytics" "Semi-structured" "High" "High" "Yes" !! "data_structure"
      = Some d ∧
    make_inputs "Analytics" "Semi-structured" "High" "High" "Yes" !! "scalability"
      = Some s ∧
    make_inputs "Analytics" "Semi-structured" "High" "High" "Yes" !! "transactions"
      = Some t ∧
    make_inputs "Analytics" "Semi-structured" "High" "High" "Yes" !! "schema_flexibility"
      = Some f ∧
    calculate_scores (make_inputs "Analytics" "Semi-structured" "High" "High" "Yes")
      = Ok sc ∧
    ∀ db, db ∈ databases →
      ∃ c1 c2 c3 c4 c5,
        contributes app_type_scores a db c1 ∧
        contributes data_structure_scores d db c2 ∧
        contributes scalability_scores s db c3 ∧
        contributes transaction_scores t db c4 ∧
        contributes schema_scores f db c5 ∧
        0 ≤ c1 ≤ 4 ∧ 0 ≤ c2 ≤ 4 ∧ 0 ≤ c3 ≤ 4 ∧ 0 ≤ c4 ≤ 4 ∧ 0 ≤ c5 ≤ 4 ∧
        sc !! db = Some (c1 + c2 + c3 + c4 + c5) ∧
        5 ≤ c1 + c2 + c3 + c4 + c5 ≤ 20.
Proof.
  apply (score_bounds (make_inputs "Analytics" "Semi-structured" "High" "High" "Yes")).
  vm_compute. reflexivity.
Defined.

(** C3. For every valid input the ranked profile list is a rearrangement of
    the three candidates' catalogue profiles, each carrying its candidate's
    total from the scores; it is in descending order of score, two profiles
    of equal score stand in the priority order MySQL, PostgreSQL, MongoDB,
    and any dictionary with the same five field values is given the same
    ranking. *)
Theorem ranking_sorted_with_priority_ties (ui : gmap string string) :
  valid_input ui = true →
  ∃ sc ranked r my pg mo,
    calculate_scores ui = Ok sc ∧
    sc !! "mysql" = Some my ∧ sc !! "postgresql" = Some pg ∧
    sc !! "mongodb" = Some mo ∧
    generate_database_profiles sc = Ok ranked ∧
    analyze ui = Ok r ∧ profiles r = ranked ∧ scores r = sc ∧
    ranked ≡ₚ [ profile_of mysql_entry my; profile_of postgresql_entry pg;
                profile_of mongodb_entry mo ] ∧
    descending ranked ∧
    ties_follow_priority ranked ∧
    ∀ ui', (∀ k, k ∈ input_keys → ui' !! k = ui !! k) →
           ∃ r', analyze ui' = Ok r' ∧ profiles r' = ranked.
Proof.
  intros Hv. apply valid_input_has_all_keys in Hv.
  destruct (has_all_keys_lookup _ Hv) as (a & d & s & t & f & Ha & Hd & Hs & Ht & Hf).
  destruct (analyze_spec _ _ _ _ _ _ Ha Hd Hs Ht Hf) as (rec & _ & Hr).
  eexists _, _, _, (total a d s t f "mysql"), (total a d s t f "postgresql"),
    (total a d s t f "mongodb").
  split; [by apply calculate_scores_spec|].
  split; [exact (score_map_lookup _ _ _ "mysql"
                   (list_elem_of_lookup_2 databases 0%nat _ eq_refl))|].
  split; [exact (score_map_lookup _ _ _ "postgresql"
                   (list_elem_of_lookup_2 databases 1%nat _ eq_refl))|].
  split; [exact (score_map_lookup _ _ _ "mongodb"
                   (list_elem_of_lookup_2 databases 2%nat _ eq_refl))|].
  split; [by apply generate_database_profiles_spec|].
  split; [exact Hr|]. split; [reflexivity|]. split; [reflexivity|].
  split; [apply sort_by_score_desc_perm|].
  split; [apply sort_by_score_desc_descending|].
  split; [intros i j p q; apply unranked_ties|].
  intros ui' Hagree. rewrite (analyze_ext _ _ Hagree), Hr. eauto.
Qed.

Lemma ranking_sorted_with_priority_ties_witness :
  ∃ sc ranked r my pg mo,
    calculate_scores (make_inputs "Web" "Structured" "Low" "High" "No") = Ok sc ∧
    sc !! "mysql" = Some my ∧ sc !! "postgresql" = Some pg ∧
    sc !! "mongodb" = Some mo ∧
    generate_database_profiles sc = Ok ranked ∧
    analyze (make_inputs "Web" "Structured" "Low" "High" "No") = Ok r ∧
    profiles r = ranked ∧ scores r = sc ∧
    ranked ≡ₚ [ profile_of mysql_entry my; profile_of postgresql_entry pg;
                profile_of mongodb_entry mo ] ∧
    descending ranked ∧
    ties_follow_priority ranked ∧
    ∀ ui', (∀ k, k ∈ input_keys →
              ui' !! k = make_inputs "Web" "Structured" "Low" "High" "No" !! k) →
           ∃ r', analyze ui' = Ok r' ∧ profiles r' = ranked.
Proof.
  apply (ranking_sorted_with_priority_ties
           (make_inputs "Web" "Structured" "Low" "High" "No")).
  vm_compute. reflexivity.
Defined.

(** C4 (as amended). Whenever [generate_recommendation] is given a ranked
    list with at least one profile, the confidence is High exactly when the
    top score exceeds the runner-up's by more than 3, Medium exactly when
    the gap is more than 1 and at most 3, Low exactly when it is at most 1;
    with exactly one profile the gap counts as 5 and the confidence is High.
    With no profile there is no recommendation: subscripting the top profile
    raises [IndexError]. *)
Theorem confidence_from_gap (ranked : list DatabaseProfile)
    (ui : gmap string string) :
  has_all_keys ui = true →
  match ranked with
  | [] => generate_recommendation ranked ui = Raise IndexError
  | p0 :: rest =>
      ∃ r, generate_recommendation ranked ui = Ok r ∧
        match rest with
        | p1 :: _ =>
            (confidence r = "High" ↔ 3 < score p0 - score p1) ∧
            (confidence r = "Medium" ↔ 1 < score p0 - score p1 ≤ 3) ∧
            (confidence r = "Low" ↔ score p0 - score p1 ≤ 1)
        | [] => confidence r = "High"
        end
  end.
Proof.
  intros Hk. destruct ranked as [|p0 rest]; [reflexivity|].
  destruct (generate_recommendation_spec p0 rest ui Hk) as (base & _ & Hr).
  eexists. split; [exact Hr|]. cbn [confidence].
  destruct rest as [|p1 rest]; [reflexivity|]. cbv zeta.
  destruct (Z.ltb_spec 3 (score p0 - score p1));
    [|destruct (Z.ltb_spec 1 (score p0 - score p1))];
    repeat split; intros; try lia; try discriminate; reflexivity.
Qed.

Lemma confidence_from_gap_witness :
  ∃ r, generate_recommendation
         [profile_of mysql_entry 18; profile_of postgresql_entry 15]
         (make_inputs "Web" "Structured" "Low" "High" "No") = Ok r ∧
    (confidence r = "High" ↔ 3 < 18 - 15) ∧
    (confidence r = "Medium" ↔ 1 < 18 - 15 ≤ 3) ∧
    (confidence r = "Low" ↔ 18 - 15 ≤ 1).
Proof.
  apply (confidence_from_gap
           [profile_of mysql_entry 18; profile_of postgresql_entry 15]
           (make_inputs "Web" "Structured" "Low" "High" "No")).
  vm_compute. reflexivity.
Defined.

(** C4 (as stated) fails on the empty ranked list, which has fewer than two
    profiles: no gap of 5 is assumed and no High confidence results, because
    [profiles[0]] raises [IndexError] before any confidence is computed. *)
Lemma no_confidence_without_profiles :
  generate_recommendation [] (make_inputs "Web" "Structured" "Low" "High" "No")
  = Raise IndexError ∧
  ¬ ∃ r, generate_recommendation []
           (make_inputs "Web" "Structured" "Low" "High" "No") = Ok r ∧
         confidence r = "High".
Proof.
  split; [reflexivity|]. intros (r & Hr & _). discriminate Hr.
Qed.

(** C6. Whenever the five fields are present, [calculate_scores] returns, and
    each candidate's total is the sum of five contributions, where a
    criterion whose value is not a key of its table contributes zero and
    every other criterion contributes the cell of its table. *)
Theorem unknown_value_contributes_zero (ui : gmap string string) :
  has_all_keys ui = true →
  ∃ a d s t f sc,
    ui !! "app_type" = Some a ∧ ui !! "data_structure" = Some d ∧
    ui !! "scalability" = Some s ∧ ui !! "transactions" = Some t ∧
    ui !! "schema_flexibility" = Some f ∧
    calculate_scores ui = Ok sc ∧
    ∀ db, db ∈ databases →
      ∃ c1 c2 c3 c4 c5,
        contributes app_type_scores a db c1 ∧
        contributes data_structure_scores d db c2 ∧
        contributes scalability_scores s db c3 ∧
        contributes transaction_scores t db c4 ∧
        contributes schema_scores f db c5 ∧
        (app_type_scores !! a = None → c1 = 0) ∧
        (data_structure_scores !! d = None → c2 = 0) ∧
        (scalability_scores !! s = None → c3 = 0) ∧
        (transaction_scores !! t = None → c4 = 0) ∧
        (schema_scores !! f = None → c5 = 0) ∧
        sc !! db = Some (c1 + c2 + c3 + c4 + c5).
Proof.
  intros Hk.
  destruct (has_all_keys_lookup _ Hk) as (a & d & s & t & f & Ha & Hd & Hs & Ht & Hf).
  exists a, d, s, t, f. eexists. repeat (split; [done|]).
  split; [by apply calculate_scores_spec|].
  intros db Hdb.
  destruct (total_contributes a d s t f db Hdb) as (C1 & C2 & C3 & C4 & C5).
  eexists _, _, _, _, _. repeat (split; [eassumption|]).
  repeat (split; [by unfold contribution; intros -> |]).
  rewrite (score_map_lookup _ _ _ _ Hdb). unfold total.
  unfold databases in Hdb.
  repeat (apply elem_of_cons in Hdb as [-> | Hdb]; [reflexivity |]).
  by apply elem_of_nil in Hdb.
Qed.

Lemma unknown_value_contributes_zero_witness :
  ∃ a d s t f sc,
    make_inputs "Mobile" "Structured" "Low" "High" "No" !! "app_type" = Some a ∧
    make_inputs "Mobile" "Structured" "Low" "High" "No" !! "data_structure" = Some d ∧
    make_inputs "Mobile" "Structured" "Low" "High" "No" !! "scalability" = Some s ∧
    make_inputs "Mobile" "Structured" "Low" "High" "No" !! "transactions" = Some t ∧
    make_inputs "Mobile" "Structured" "Low" "High" "No" !! "schema_flexibility" = Some f ∧
    calculate_scores (make_inputs "Mobile" "Structured" "Low" "High" "No") = Ok sc ∧
    ∀ db, db ∈ databases →
      ∃ c1 c2 c3 c4 c5,
        contributes app_type_scores a db c1 ∧
        contributes data_structure_scores d db c2 ∧
        contributes scalability_scores s db c3 ∧
        contributes transaction_scores t db c4 ∧
        contributes schema_scores f db c5 ∧
        (app_type_scores !! a = None → c1 = 0) ∧
        (data_structure_scores !! d = None → c2 = 0) ∧
        (scalability_scores !! s = None → c3 = 0) ∧
        (transaction_scores !! t = None → c4 = 0) ∧
        (schema_scores !! f = None → c5 = 0) ∧
        sc !! db = Some (c1 + c2 + c3 + c4 + c5).
Proof.
  apply (unknown_value_contributes_zero
           (make_inputs "Mobile" "Structured" "Low" "High" "No")).
  vm_compute. reflexivity.
Defined.

(** The same input evaluated: the unknown application type adds nothing to
    the 15, 15 and 7 points of the other four criteria. *)
Example calculate_scores_mobile :
  calculate_scores (make_inputs "Mobile" "Structured" "Low" "High" "No")
  = Ok (score_map (0 + 4 + 3 + 4 + 4) (0 + 4 + 3 + 4 + 4) (0 + 1 + 2 + 2 + 2)).
Proof. by vm_compute. Qed.

(** C7. Whenever [generate_recommendation] is given a ranked list with a top
    profile, its reasoning is the top candidate's sentences, none of which
    is a note, followed by the closeness note, which names the runner-up and
    gives both scores, exactly when there is a runner-up whose score is
    within 2 of the top score; the note is then the last entry. *)
Theorem closeness_note_iff_within_two (p0 : DatabaseProfile)
    (rest : list DatabaseProfile) (ui : gmap string string) :
  has_all_keys ui = true →
  ∃ r base,
    generate_recommendation (p0 :: rest) ui = Ok r ∧
    Forall (λ sentence, String.prefix "Note: " sentence = false) base ∧
    match rest with
    | p1 :: _ =>
        (score p0 - score p1 ≤ 2 →
           reasoning r = base ++ [closeness_note p1 p0] ∧
           last (reasoning r)
           = Some ("Note: " ++ name p1 ++ " scored closely ("
                   ++ str (score p1) ++ " vs " ++ str (score p0) ++ "). "
                   ++ "Consider evaluating both options based on team expertise."
                  )%string) ∧
        (2 < score p0 - score p1 → reasoning r = base)
    | [] => reasoning r = base
    end.
Proof.
  intros Hk. destruct (generate_recommendation_spec p0 rest ui Hk) as (base & Hn & Hr).
  eexists _, base. split; [exact Hr|]. split; [exact Hn|]. cbn [reasoning].
  destruct rest as [|p1 rest]; [reflexivity|].
  destruct (Z.leb_spec (score p0 - score p1) 2); cbn [append_if];
    (split; [intros ? | intros ?]); try lia; [|reflexivity].
  split; [reflexivity|]. by rewrite last_snoc.
Qed.

Lemma closeness_note_iff_within_two_witness :
  ∃ r base,
    generate_recommendation
      [profile_of mysql_entry 18; profile_of postgresql_entry 16]
      (make_inputs "Web" "Structured" "Low" "High" "No") = Ok r ∧
    Forall (λ sentence, String.prefix "Note: " sentence = false) base ∧
    (score (profile_of mysql_entry 18) - score (profile_of postgresql_entry 16) ≤ 2 →
       reasoning r
       = base ++ [closeness_note (profile_of postgresql_entry 16)
                                 (profile_of mysql_entry 18)] ∧
       last (reasoning r)
       = Some ("Note: " ++ name (profile_of postgresql_entry 16)
               ++ " scored closely ("
               ++ str (score (profile_of postgresql_entry 16)) ++ " vs "
               ++ str (score (profile_of mysql_entry 18)) ++ "). "
               ++ "Consider evaluating both options based on team expertise."
              )%string) ∧
    (2 < score (profile_of mysql_entry 18) - score (profile_of postgresql_entry 16) →
       reasoning r = base).
Proof.
  apply (closeness_note_iff_within_two (profile_of mysql_entry 18)
           [profile_of postgresql_entry 16]
           (make_inputs "Web" "Structured" "Low" "High" "No")).
  vm_compute. reflexivity.
Defined.

(** The note of that list, evaluated. *)
Example closeness_note_18_16 :
  ∃ r, generate_recommendation
         [profile_of mysql_entry 18; profile_of postgresql_entry 16]
         (make_inputs "Analytics" "Structured" "High" "Low" "No") = Ok r ∧
       reasoning r
       = [ "MySQL is recommended for your traditional web application needs with structured data.";
           "Note: PostgreSQL scored closely (16 vs 18). Consider evaluating both options based on team expertise." ].
Proof. eexists. split; by vm_compute. Qed.

(** C8. For every valid input [identify_tradeoffs] returns exactly the
    trade-offs of the five rules whose trigger holds on that input, in the
    order the rules are declared; every trigger is tested on the input as
    given, so no rule hides another. [analyze] reports the same list. *)
Theorem tradeoffs_are_the_fired_rules (ui : gmap string string) :
  valid_input ui = true →
  identify_tradeoffs ui = Ok (fired tradeoff_rules ui) ∧
  ∃ r, analyze ui = Ok r ∧ tradeoffs r = fired tradeoff_rules ui.
Proof.
  intros Hv. apply valid_input_has_all_keys in Hv. split.
  - by apply identify_tradeoffs_spec.
  - destruct (has_all_keys_lookup _ Hv) as (a & d & s & t & f & Ha & Hd & Hs & Ht & Hf).
    destruct (analyze_spec _ _ _ _ _ _ Ha Hd Hs Ht Hf) as (rec & _ & Hr).
    eexists. split; [exact Hr | reflexivity].
Qed.

Lemma tradeoffs_are_the_fired_rules_witness :
  identify_tradeoffs (make_inputs "Analytics" "Unstructured" "High" "High" "Yes")
  = Ok (fired tradeoff_rules
          (make_inputs "Analytics" "Unstructured" "High" "High" "Yes")) ∧
  ∃ r, analyze (make_inputs "Analytics" "Unstructured" "High" "High" "Yes") = Ok r ∧
       tradeoffs r
       = fired tradeoff_rules
           (make_inputs "Analytics" "Unstructured" "High" "High" "Yes").
Proof.
  apply (tradeoffs_are_the_fired_rules
           (make_inputs "Analytics" "Unstructured" "High" "High" "Yes")).
  vm_compute. reflexivity.
Defined.

(** Several rules fire together: three on this input, one on the next. *)
Example three_tradeoffs_fire :
  fired tradeoff_rules (make_inputs "Analytics" "Unstructured" "High" "High" "Yes")
  = [tradeoff_cap; tradeoff_analytics; tradeoff_document].
Proof. by vm_compute. Qed.

Example schema_and_web_tradeoffs_fire :
  identify_tradeoffs (make_inputs "Web" "Structured" "Low" "Low" "Yes")
  = Ok [tradeoff_schema; tradeoff_read_write].
Proof. by vm_compute. Qed.

(** C9. For the input Real-time / Unstructured / High / Low / Yes the top
    candidate is MongoDB and the alternatives are the Redis/Kafka one, fired
    by Real-time with Unstructured, followed by the TimescaleDB/InfluxDB
    one, fired by Real-time alone. In general [suggest_alternatives] returns
    the alternatives of all the rules whose trigger holds, in declaration
    order. *)
Theorem scenario_realtime_unstructured :
  (∃ r, analyze (make_inputs "Real-time" "Unstructured" "High" "Low" "Yes") = Ok r ∧
     (λ p, (name p, score p)) <$> profiles r
       = [("MongoDB", 19); ("PostgreSQL", 10); ("MySQL", 8)] ∧
     database (recommendation r) = "MongoDB" ∧
     alternatives r = [alternative_streaming; alternative_time_series] ∧
     alt_database alternative_streaming = "Redis or Apache Kafka" ∧
     alt_database alternative_time_series = "TimescaleDB or InfluxDB" ∧
     fired alternative_rules
       (make_inputs "Real-time" "Unstructured" "High" "Low" "Yes")
     = alternatives r) ∧
  (∀ ui, has_all_keys ui = true →
     suggest_alternatives ui = Ok (fired alternative_rules ui)).
Proof.
  split; [|apply suggest_alternatives_spec].
  eexists. split; [by vm_compute|]. repeat split; by vm_compute.
Qed.

Lemma scenario_realtime_unstructured_witness :
  suggest_alternatives (make_inputs "Analytics" "Unstructured" "High" "High" "No")
  = Ok (fired alternative_rules
          (make_inputs "Analytics" "Unstructured" "High" "High" "No")).
Proof.
  apply (proj2 scenario_realtime_unstructured
           (make_inputs "Analytics" "Unstructured" "High" "High" "No")).
  vm_compute. reflexivity.
Defined.

(** C10. Whenever the five keys are present, whatever their values,
    [analyze] returns; the scores are defined for exactly mysql, postgresql
    and mongodb; and the ranked list holds exactly three profiles, one per
    candidate, each carrying its candidate's score. *)
Theorem analyze_total_on_five_keys (ui : gmap string string) :
  has_all_keys ui = true →
  ∃ r, analyze ui = Ok r ∧
    dom (scores r) = {[ "mysql"; "postgresql"; "mongodb" ]} ∧
    length (profiles r) = 3%nat ∧
    ∃ my pg mo,
      profiles r ≡ₚ [my; pg; mo] ∧
      name my = "MySQL" ∧ scores r !! "mysql" = Some (score my) ∧
      name pg = "PostgreSQL" ∧ scores r !! "postgresql" = Some (score pg) ∧
      name mo = "MongoDB" ∧ scores r !! "mongodb" = Some (score mo).
Proof.
  intros Hk.
  destruct (has_all_keys_lookup _ Hk) as (a & d & s & t & f & Ha & Hd & Hs & Ht & Hf).
  destruct (analyze_spec _ _ _ _ _ _ Ha Hd Hs Ht Hf) as (rec & _ & Hr).
  eexists. split; [exact Hr|]. cbn [scores profiles].
  split.
  { rewrite score_map_dom. unfold databases. cbn [list_to_set]. set_solver. }
  split; [apply unranked_length|].
  eexists _, _, _. split; [apply sort_by_score_desc_perm|].
  repeat split; by vm_compute.
Qed.

Lemma analyze_total_on_five_keys_witness :
  ∃ r, analyze (make_inputs "Mobile" "Graph" "Huge" "Some" "Maybe") = Ok r ∧
    dom (scores r) = {[ "mysql"; "postgresql"; "mongodb" ]} ∧
    length (profiles r) = 3%nat ∧
    ∃ my pg mo,
      profiles r ≡ₚ [my; pg; mo] ∧
      name my = "MySQL" ∧ scores r !! "mysql" = Some (score my) ∧
      name pg = "PostgreSQL" ∧ scores r !! "postgresql" = Some (score pg) ∧
      name mo = "MongoDB" ∧ scores r !! "mongodb" = Some (score mo).
Proof.
  apply (analyze_total_on_five_keys
           (make_inputs "Mobile" "Graph" "Huge" "Some" "Maybe")).
  vm_compute. reflexivity.
Defined.

(** * Further properties of the engine and of the report *)

(** ** Scores *)

Lemma score_map_lookups my pg mo :
  score_map my pg mo !! "mysql" = Some my ∧
  score_map my pg mo !! "postgresql" = Some pg ∧
  score_map my pg mo !! "mongodb" = Some mo.
Proof. repeat split; by vm_compute. Qed.

Lemma mysql_cell_le_postgresql_cell key table v :
  (key, table) ∈ score_tables →
  contribution table v "mysql" ≤ contribution table v "postgresql".
Proof.
  unfold score_tables. intros Hin.
  repeat (apply elem_of_cons in Hin as [Hin | Hin]; [injection Hin as -> -> |]);
    [.. | by apply elem_of_nil in Hin];
    unfold contribution;
    (match goal with
     | |- context [?t !! v] => destruct (t !! v) as [row|] eqn:E; [|lia]
     end);
    table_cases E; by vm_compute.
Qed.

(** X1. In every row of every table MySQL's cell is at most PostgreSQL's, so
    whenever the five fields are present, whatever their values, MySQL's
    total is at most PostgreSQL's; no total is negative or above 20. *)
Theorem mysql_total_never_above_postgresql (ui : gmap string string) :
  has_all_keys ui = true →
  ∃ sc my pg mo,
    calculate_scores ui = Ok sc ∧
    sc !! "mysql" = Some my ∧ sc !! "postgresql" = Some pg ∧
    sc !! "mongodb" = Some mo ∧
    0 ≤ my ∧ my ≤ pg ∧ pg ≤ 20 ∧ 0 ≤ mo ≤ 20.
Proof.
  intros Hk.
  destruct (has_all_keys_lookup _ Hk) as (a & d & s & t & f & Ha & Hd & Hs & Ht & Hf).
  exists (score_map (total a d s t f "mysql") (total a d s t f "postgresql")
                    (total a d s t f "mongodb")),
    (total a d s t f "mysql"), (total a d s t f "postgresql"),
    (total a d s t f "mongodb").
  split; [by apply calculate_scores_spec|].
  destruct (score_map_lookups (total a d s t f "mysql")
              (total a d s t f "postgresql") (total a d s t f "mongodb"))
    as (-> & -> & ->).
  repeat (split; [reflexivity|]).
  assert (Hdb : ∀ db, db ∈ databases → 0 ≤ total a d s t f db ≤ 20).
  { intros db Hdb. unfold total.
    pose proof (contribution_bounds _ a db app_type_scores_complete Hdb).
    pose proof (contribution_bounds _ d db data_structure_scores_complete Hdb).
    pose proof (contribution_bounds _ s db scalability_scores_complete Hdb).
    pose proof (contribution_bounds _ t db transaction_scores_complete Hdb).
    pose proof (contribution_bounds _ f db schema_scores_complete Hdb). lia. }
  pose proof (Hdb "mysql" (list_elem_of_lookup_2 databases 0%nat _ eq_refl)).
  pose proof (Hdb "postgresql" (list_elem_of_lookup_2 databases 1%nat _ eq_refl)).
  pose proof (Hdb "mongodb" (list_elem_of_lookup_2 databases 2%nat _ eq_refl)).
  assert (total a d s t f "mysql" ≤ total a d s t f "postgresql"); [|lia].
  unfold total.
  pose proof (mysql_cell_le_postgresql_cell "app_type" _ a
                (list_elem_of_lookup_2 score_tables 0%nat _ eq_refl)).
  pose proof (mysql_cell_le_postgresql_cell "data_structure" _ d
                (list_elem_of_lookup_2 score_tables 1%nat _ eq_refl)).
  pose proof (mysql_cell_le_postgresql_cell "scalability" _ s
                (list_elem_of_lookup_2 score_tables 2%nat _ eq_refl)).
  pose proof (mysql_cell_le_postgresql_cell "transactions" _ t
                (list_elem_of_lookup_2 score_tables 3%nat _ eq_refl)).
  pose proof (mysql_cell_le_postgresql_cell "schema_flexibility" _ f
                (list_elem_of_lookup_2 score_tables 4%nat _ eq_refl)).
  lia.
Qed.

Lemma mysql_total_never_above_postgresql_witness :
  ∃ sc my pg mo,
    calculate_scores (make_inputs "Tablet" "Semi-structured" "High" "Low" "Yes")
    = Ok sc ∧
    sc !! "mysql" = Some my ∧ sc !! "postgresql" = Some pg ∧
    sc !! "mongodb" = Some mo ∧
    0 ≤ my ∧ my ≤ pg ∧ pg ≤ 20 ∧ 0 ≤ mo ≤ 20.
Proof.
  apply (mysql_total_never_above_postgresql
           (make_inputs "Tablet" "Semi-structured" "High" "Low" "Yes")).
  vm_compute. reflexivity.
Defined.

(** ** Ranking of an arbitrary score dictionary *)

Lemma getitem_db_profiles :
  getitem db_profiles "mysql" = Ok mysql_entry ∧
  getitem db_profiles "postgresql" = Ok postgresql_entry ∧
  getitem db_profiles "mongodb" = Ok mongodb_entry.
Proof. repeat split; by vm_compute. Qed.

Lemma generate_database_profiles_present (sc : gmap string Z) my pg mo :
  sc !! "mysql" = Some my → sc !! "postgresql" = Some pg →
  sc !! "mongodb" = Some mo →
  generate_database_profiles sc = Ok (sort_by_score_desc (unranked my pg mo)).
Proof.
  intros Hmy Hpg Hmo. unfold generate_database_profiles.
  destruct getitem_db_profiles as (E1 & E2 & E3).
  cbn [for_each databases].
  rewrite E1, E2, E3, (getitem_Some _ _ _ Hmy), (getitem_Some _ _ _ Hpg),
    (getitem_Some _ _ _ Hmo).
  reflexivity.
Qed.

(** X2. [generate_database_profiles] on any score dictionary. If the dictionary
    lacks a candidate's key, the first such key in the order mysql,
    postgresql, mongodb is raised as a [KeyError]. Otherwise the result is a
    rearrangement of the three catalogue profiles carrying the dictionary's
    scores, in descending order of score, equal scores in catalogue order;
    keys other than the three candidates are ignored. *)
Theorem ranking_of_any_scores (sc : gmap string Z) :
  match missing_key databases sc with
  | Some k => sc !! k = None ∧ generate_database_profiles sc = Raise (KeyError k)
  | None =>
      ∃ my pg mo ranked,
        sc !! "mysql" = Some my ∧ sc !! "postgresql" = Some pg ∧
        sc !! "mongodb" = Some mo ∧
        generate_database_profiles sc = Ok ranked ∧
        ranked ≡ₚ [ profile_of mysql_entry my; profile_of postgresql_entry pg;
                    profile_of mongodb_entry mo ] ∧
        descending ranked ∧ ties_follow_priority ranked
  end.
Proof.
  unfold missing_key, contains. cbn [find databases].
  destruct getitem_db_profiles as (E1 & E2 & E3).
  destruct (sc !! "mysql") as [my|] eqn:Hmy; cbn [negb].
  2: { split; [done|]. unfold generate_database_profiles.
       cbn [for_each databases]. by rewrite E1, (getitem_None _ _ Hmy). }
  destruct (sc !! "postgresql") as [pg|] eqn:Hpg; cbn [negb].
  2: { split; [done|]. unfold generate_database_profiles.
       cbn [for_each databases].
       by rewrite E1, E2, (getitem_Some _ _ _ Hmy), (getitem_None _ _ Hpg). }
  destruct (sc !! "mongodb") as [mo|] eqn:Hmo; cbn [negb].
  2: { split; [done|]. unfold generate_database_profiles.
       cbn [for_each databases].
       by rewrite E1, E2, E3, (getitem_Some _ _ _ Hmy), (getitem_Some _ _ _ Hpg),
         (getitem_None _ _ Hmo). }
  exists my, pg, mo. eexists. repeat (split; [done|]).
  split; [by apply generate_database_profiles_present|].
  split; [apply sort_by_score_desc_perm|].
  split; [apply sort_by_score_desc_descending|].
  intros i j p q. apply unranked_ties.
Qed.

(** A dictionary with negative scores, an extra key, and a tie. *)
Example ranking_of_negative_scores :
  ∃ ranked,
    generate_database_profiles
      (list_to_map [("mongodb", -1); ("sqlite", 40); ("mysql", -3);
                    ("postgresql", -1)]) = Ok ranked ∧
    (λ p, (name p, score p)) <$> ranked
    = [("PostgreSQL", -1); ("MongoDB", -1); ("MySQL", -3)].
Proof. eexists. split; by vm_compute. Qed.

(** ** [generate_recommendation] *)

Lemma generate_recommendation_branch p0 rest ui base :
  candidate_reasoning (name p0) ui = Ok base →
  generate_recommendation (p0 :: rest) ui
  = Ok {| database := name p0;
          confidence :=
            (let score_diff :=
               match rest with p1 :: _ => score p0 - score p1 | [] => 5 end in
             if 3 <? score_diff then "High"
             else if 1 <? score_diff then "Medium" else "Low");
          reasoning :=
            match rest with
            | p1 :: _ =>
                append_if (score p0 - score p1 <=? 2) (closeness_note p1 p0) base
            | [] => base
            end |}.
Proof.
  unfold candidate_reasoning. intros Hb.
  unfold generate_recommendation, list_getitem. cbn [lookup list_lookup].
  cbn [mbind result_bind]. rewrite Hb. cbn [mbind result_bind].
  destruct rest as [|p1 rest]; reflexivity.
Qed.

Lemma generate_recommendation_branch_error p0 rest ui e :
  candidate_reasoning (name p0) ui = Raise e →
  generate_recommendation (p0 :: rest) ui = Raise e.
Proof.
  unfold candidate_reasoning. intros Hb.
  unfold generate_recommendation, list_getitem. cbn [lookup list_lookup].
  cbn [mbind result_bind]. by rewrite Hb.
Qed.

Lemma item_is_cases ui k v :
  (∃ x, ui !! k = Some x ∧ item_is ui k v = Ok (String.eqb x v)) ∨
  (ui !! k = None ∧ item_is ui k v = Raise (KeyError k)).
Proof.
  destruct (ui !! k) as [x|] eqn:E.
  - left. exists x. split; [done|]. by apply item_is_Some.
  - right. split; [done|]. by apply item_is_None.
Qed.

(** What each branch computes, by the fields it reads: the first field of
    the branch that is absent is raised; otherwise the branch returns its
    opening sentence followed by at most one sentence per field, none of
    them a note. *)
Lemma candidate_reasoning_cases top_name ui :
  match missing_key (fields_read top_name) ui with
  | Some k => candidate_reasoning top_name ui = Raise (KeyError k)
  | None =>
      ∃ more,
        candidate_reasoning top_name ui = Ok (opening_sentence top_name :: more) ∧
        (length more ≤ length (fields_read top_name))%nat ∧
        Forall (λ sentence, String.prefix "Note: " sentence = false)
               (opening_sentence top_name :: more)
  end.
Proof.
  unfold candidate_reasoning, fields_read, opening_sentence, missing_key, contains.
  unfold mysql_reasoning, postgresql_reasoning, mongodb_reasoning, item_is, getitem.
  destruct (String.eqb top_name "MySQL");
    [|destruct (String.eqb top_name "PostgreSQL")];
    cbn [find negb];
    destruct (ui !! "transactions") as [t|], (ui !! "scalability") as [s|],
      (ui !! "app_type") as [a|], (ui !! "data_structure") as [d|],
      (ui !! "schema_flexibility") as [f|];
    cbn [find negb mbind result_bind]; try reflexivity;
    repeat match goal with
           | |- context [String.eqb ?x ?y] => destruct (String.eqb x y)
           end;
    cbn [append_if negb app];
    (eexists; split; [reflexivity|]; split; [cbn; lia | by repeat constructor]).
Qed.

(** X3. [generate_recommendation] needs only the fields its top candidate's
    branch reads (three for MySQL, four for the others): with a top profile,
    it raises [KeyError] for the first of them that is absent and otherwise
    returns a recommendation for the top profile's name. *)
Theorem recommendation_needs_only_branch_fields (p0 : DatabaseProfile)
    (rest : list DatabaseProfile) (ui : gmap string string) :
  match missing_key (fields_read (name p0)) ui with
  | Some k =>
      ui !! k = None ∧ generate_recommendation (p0 :: rest) ui = Raise (KeyError k)
  | None =>
      ∃ r, generate_recommendation (p0 :: rest) ui = Ok r ∧ database r = name p0
  end.
Proof.
  pose proof (candidate_reasoning_cases (name p0) ui) as H.
  destruct (missing_key (fields_read (name p0)) ui) as [k|] eqn:E.
  - split; [|by apply generate_recommendation_branch_error].
    unfold missing_key in E. apply find_some in E as [_ Hk].
    unfold contains in Hk. by destruct (ui !! k).
  - destruct H as (more & Hb & _).
    rewrite (generate_recommendation_branch _ _ _ _ Hb). eauto.
Qed.

(** MySQL at the top with only the three fields of its branch present. *)
Example mysql_branch_ignores_two_fields :
  ∃ r, generate_recommendation
         [profile_of mysql_entry 9; profile_of postgresql_entry 9]
         (list_to_map [("transactions", "High"); ("scalability", "Low");
                       ("app_type", "Web")]) = Ok r ∧
       confidence r = "Low".
Proof. eexists. split; by vm_compute. Qed.

(** X4. The reasoning always opens with the sentence of the top candidate's
    branch; a top name other than MySQL and PostgreSQL, whatever it is,
    gets MongoDB's sentences. After the opening come at most one sentence
    per field of the branch and at most one note. *)
Theorem reasoning_opens_with_branch_sentence (p0 : DatabaseProfile)
    (rest : list DatabaseProfile) (ui : gmap string string) :
  has_all_keys ui = true →
  ∃ r, generate_recommendation (p0 :: rest) ui = Ok r ∧
    database r = name p0 ∧
    head (reasoning r) = Some (opening_sentence (name p0)) ∧
    (1 ≤ length (reasoning r) ≤ 2 + length (fields_read (name p0)))%nat ∧
    (name p0 ≠ "MySQL" → name p0 ≠ "PostgreSQL" →
       head (reasoning r)
       = Some "MongoDB is the best choice for your scalability and flexibility needs.").
Proof.
  intros Hk.
  destruct (has_all_keys_lookup _ Hk) as (a & d & s & t & f & Ha & Hd & Hs & Ht & Hf).
  pose proof (candidate_reasoning_cases (name p0) ui) as H.
  assert (missing_key (fields_read (name p0)) ui = None) as E.
  { unfold missing_key, fields_read, contains.
    destruct (String.eqb (name p0) "MySQL");
      [|destruct (String.eqb (name p0) "PostgreSQL")];
      cbn [find]; by rewrite ?Ha, ?Hd, ?Hs, ?Ht, ?Hf. }
  rewrite E in H. destruct H as (more & Hb & Hlen & _).
  eexists. split; [by apply generate_recommendation_branch|].
  cbn [database reasoning]. split; [done|].
  assert (∀ c x, head (append_if c x (opening_sentence (name p0) :: more))
                 = Some (opening_sentence (name p0))) as Hhead
    by (by intros [] ?).
  assert (∀ c x, (1 ≤ length (append_if c x (opening_sentence (name p0) :: more))
                  ≤ 2 + length (fields_read (name p0)))%nat) as Hl.
  { intros [] x; cbn [append_if]; rewrite ?length_app; cbn [length]; lia. }
  split; [by destruct rest|].
  split; [destruct rest; [cbn [length]; lia | apply Hl]|].
  intros H1%String.eqb_neq H2%String.eqb_neq.
  assert (opening_sentence (name p0)
          = "MongoDB is the best choice for your scalability and flexibility needs.")
    as <- by (unfold opening_sentence; by rewrite H1, H2).
  by destruct rest.
Qed.

Lemma reasoning_opens_with_branch_sentence_witness :
  ∃ r, generate_recommendation
         [ {| name := "SQLite"; db_type := "Embedded"; score := 12;
              pros := []; cons_ := [] |} ]
         (make_inputs "Web" "Structured" "Low" "High" "No") = Ok r ∧
    database r = "SQLite" ∧
    head (reasoning r) = Some (opening_sentence "SQLite") ∧
    (1 ≤ length (reasoning r) ≤ 2 + length (fields_read "SQLite"))%nat ∧
    ("SQLite" ≠ "MySQL" → "SQLite" ≠ "PostgreSQL" →
       head (reasoning r)
       = Some "MongoDB is the best choice for your scalability and flexibility needs.").
Proof.
  apply (reasoning_opens_with_branch_sentence
           {| name := "SQLite"; db_type := "Embedded"; score := 12;
              pros := []; cons_ := [] |} []
           (make_inputs "Web" "Structured" "Low" "High" "No")).
  vm_compute. reflexivity.
Defined.

Lemma prefix_append (s t : string) : String.prefix s (s ++ t)%string = true.
Proof.
  induction s as [|c s IH]; cbn.
  - by destruct t.
  - change (String.prefix (String c s) (String c s ++ t)%string)
      with (if Ascii.ascii_dec c c then String.prefix s (s ++ t)%string else false).
    destruct (Ascii.ascii_dec c c); [exact IH | congruence].
Qed.

Lemma closeness_note_prefix p1 p0 :
  String.prefix "Note: " (closeness_note p1 p0) = true.
Proof. apply prefix_append. Qed.

Lemma last_no_note (base : list string) (note : string) :
  Forall (λ sentence, String.prefix "Note: " sentence = false) base →
  String.prefix "Note: " note = true → last base ≠ Some note.
Proof.
  intros Hb Hn Hl. apply last_Some in Hl as [l' ->].
  rewrite Forall_app, Forall_singleton in Hb. destruct Hb as [_ Hb].
  congruence.
Qed.

(** X5. The confidence and the closeness note agree. With a runner-up: a High
    confidence never comes with a note, a Low confidence always ends with
    the note, and a Medium confidence ends with the note exactly when the
    gap is 2. *)
Theorem note_agrees_with_confidence (p0 p1 : DatabaseProfile)
    (rest : list DatabaseProfile) (ui : gmap string string) :
  has_all_keys ui = true →
  ∃ r, generate_recommendation (p0 :: p1 :: rest) ui = Ok r ∧
    (confidence r = "High" →
       Forall (λ sentence, String.prefix "Note: " sentence = false) (reasoning r)) ∧
    (confidence r = "Low" → last (reasoning r) = Some (closeness_note p1 p0)) ∧
    (confidence r = "Medium" →
       (last (reasoning r) = Some (closeness_note p1 p0)
        ↔ score p0 - score p1 = 2)).
Proof.
  intros Hk.
  destruct (generate_recommendation_spec p0 (p1 :: rest) ui Hk) as (base & Hn & Hr).
  eexists. split; [exact Hr|]. cbn [confidence reasoning]. cbv zeta.
  pose proof (last_no_note base _ Hn (closeness_note_prefix p1 p0)) as Hlast.
  destruct (Z.ltb_spec 3 (score p0 - score p1));
    [|destruct (Z.ltb_spec 1 (score p0 - score p1))];
    destruct (Z.leb_spec (score p0 - score p1) 2); try lia;
    cbn [append_if]; rewrite ?last_snoc;
    repeat split; try done; try lia; intros; try lia; try discriminate.
Qed.

Lemma note_agrees_with_confidence_witness :
  ∃ r, generate_recommendation
         [profile_of postgresql_entry 16; profile_of mysql_entry 14;
          profile_of mongodb_entry 9]
         (make_inputs "Web" "Structured" "Low" "High" "Yes") = Ok r ∧
    (confidence r = "High" →
       Forall (λ sentence, String.prefix "Note: " sentence = false) (reasoning r)) ∧
    (confidence r = "Low" →
       last (reasoning r)
       = Some (closeness_note (profile_of mysql_entry 14)
                              (profile_of postgresql_entry 16))) ∧
    (confidence r = "Medium" →
       (last (reasoning r)
        = Some (closeness_note (profile_of mysql_entry 14)
                               (profile_of postgresql_entry 16))
        ↔ score (profile_of postgresql_entry 16)
          - score (profile_of mysql_entry 14) = 2)).
Proof.
  apply (note_agrees_with_confidence (profile_of postgresql_entry 16)
           (profile_of mysql_entry 14) [profile_of mongodb_entry 9]
           (make_inputs "Web" "Structured" "Low" "High" "Yes")).
  vm_compute. reflexivity.
Defined.

(** ** Trade-off and alternative rules on arbitrary dictionaries *)

Lemma field_is_lookup ui key v :
  field_is ui key v
  = match ui !! key with Some x => String.eqb x v | None => false end.
Proof.
  destruct (ui !! key) as [x|] eqn:E; [by apply field_is_eqb|].
  unfold field_is. rewrite E. by apply bool_decide_eq_false.
Qed.

Ltac rules_on_any_input :=
  rewrite ?field_is_lookup;
  unfold py_and, item_is, getitem;
  match goal with
  | ui : gmap string string |- _ =>
      destruct (ui !! "app_type") as [a|] eqn:Ha,
        (ui !! "data_structure") as [d|] eqn:Hd,
        (ui !! "scalability") as [s|] eqn:Hs,
        (ui !! "transactions") as [t|] eqn:Ht,
        (ui !! "schema_flexibility") as [f|] eqn:Hf
  end;
  cbn [mbind result_bind];
  repeat match goal with
         | |- context [String.eqb ?x ?y] =>
             destruct (String.eqb x y); cbn [mbind result_bind andb]
         end;
  first [ reflexivity
        | eexists; split; [reflexivity|]; split;
          [unfold input_keys; by repeat constructor | assumption] ].

Lemma identify_tradeoffs_cases (ui : gmap string string) :
  match identify_tradeoffs ui with
  | Ok l => l = fired tradeoff_rules ui
  | Raise e => ∃ k, e = KeyError k ∧ k ∈ input_keys ∧ ui !! k = None
  end.
Proof.
  unfold identify_tradeoffs, fired, tradeoff_rules.
  cbn [List.filter fst snd]. rules_on_any_input.
Qed.

Lemma suggest_alternatives_cases (ui : gmap string string) :
  match suggest_alternatives ui with
  | Ok l => l = fired alternative_rules ui
  | Raise e => ∃ k, e = KeyError k ∧ k ∈ input_keys ∧ ui !! k = None
  end.
Proof.
  unfold suggest_alternatives, fired, alternative_rules.
  cbn [List.filter fst snd]. rules_on_any_input.
Qed.

Lemma identify_tradeoffs_returned ui l :
  identify_tradeoffs ui = Ok l → l = fired tradeoff_rules ui.
Proof. intros H. pose proof (identify_tradeoffs_cases ui) as K. by rewrite H in K. Qed.

Lemma suggest_alternatives_returned ui l :
  suggest_alternatives ui = Ok l → l = fired alternative_rules ui.
Proof.
  intros H. pose proof (suggest_alternatives_cases ui) as K. by rewrite H in K.
Qed.

(** X6. [identify_tradeoffs] on any dictionary, complete or not: when it
    returns, the result is exactly the trade-offs of the rules whose trigger
    holds, in declaration order; when it raises, the exception is the
    [KeyError] of one of the five fields, absent from the dictionary. *)
Theorem tradeoffs_on_any_dictionary (ui : gmap string string) :
  match identify_tradeoffs ui with
  | Ok l => l = fired tradeoff_rules ui
  | Raise e => ∃ k, e = KeyError k ∧ k ∈ input_keys ∧ ui !! k = None
  end.
Proof. apply identify_tradeoffs_cases. Qed.

(** X7. [suggest_alternatives] on any dictionary, in the same way: the
    alternatives of the rules whose trigger holds, in declaration order, or
    the [KeyError] of an absent field. *)
Theorem alternatives_on_any_dictionary (ui : gmap string string) :
  match suggest_alternatives ui with
  | Ok l => l = fired alternative_rules ui
  | Raise e => ∃ k, e = KeyError k ∧ k ∈ input_keys ∧ ui !! k = None
  end.
Proof. apply suggest_alternatives_cases. Qed.

(** The right operand of an [and] is not evaluated when the left one is
    false: without the transactions and schema_flexibility fields this
    input still gets its trade-offs. *)
Example tradeoffs_without_two_fields :
  identify_tradeoffs
    (list_to_map [("app_type", "Web"); ("data_structure", "Semi-structured");
                  ("scalability", "Low")])
  = Ok [tradeoff_read_write].
Proof. by vm_compute. Qed.

(** X8. [suggest_alternatives] never reads schema_flexibility: two dictionaries
    that agree on the other four fields get the same answer. *)
Theorem alternatives_ignore_schema_flexibility (ui1 ui2 : gmap string string) :
  (∀ k, k ∈ ["app_type"; "data_structure"; "scalability"; "transactions"] →
        ui1 !! k = ui2 !! k) →
  suggest_alternatives ui1 = suggest_alternatives ui2.
Proof.
  intros H.
  assert (Ha := H "app_type" ltac:(by repeat constructor)).
  assert (Hd := H "data_structure" ltac:(by repeat constructor)).
  assert (Hs := H "scalability" ltac:(by repeat constructor)).
  assert (Ht := H "transactions" ltac:(by repeat constructor)).
  unfold suggest_alternatives, item_is, getitem.
  by rewrite Ha, Hd, Hs, Ht.
Qed.

Lemma alternatives_ignore_schema_flexibility_witness :
  suggest_alternatives
    (delete "schema_flexibility"
       (make_inputs "Real-time" "Unstructured" "High" "High" "Yes"))
  = suggest_alternatives
      (make_inputs "Real-time" "Unstructured" "High" "High" "No").
Proof.
  apply (alternatives_ignore_schema_flexibility
           (delete "schema_flexibility"
              (make_inputs "Real-time" "Unstructured" "High" "High" "Yes"))
           (make_inputs "Real-time" "Unstructured" "High" "High" "No")).
  intros k Hk.
  repeat (apply elem_of_cons in Hk as [-> | Hk]; [vm_compute; reflexivity |]).
  by apply elem_of_nil in Hk.
Defined.

(** The rules that fire, by the truth of the triggers. The first and fourth
    trade-off triggers need different data structures and the third and
    fifth different application types, as do the search and the time-series
    alternative triggers; the second and third trade-off triggers are the
    third and first alternative triggers. *)
Lemma fired_rules_shape (ui : gmap string string) :
  ∃ schema cap analytics document web streaming search realtime : bool,
    fired tradeoff_rules ui
    = (if schema then [tradeoff_schema] else [])
      ++ (if cap then [tradeoff_cap] else [])
      ++ (if analytics then [tradeoff_analytics] else [])
      ++ (if document then [tradeoff_document] else [])
      ++ (if web then [tradeoff_read_write] else []) ∧
    fired alternative_rules ui
    = (if analytics then [alternative_olap] else [])
      ++ (if streaming then [alternative_streaming] else [])
      ++ (if cap then [alternative_distributed_sql] else [])
      ++ (if search then [alternative_search] else [])
      ++ (if realtime then [alternative_time_series] else []) ∧
    schema && document = false ∧ analytics && web = false ∧
    (streaming = true → realtime = true) ∧ analytics && realtime = false ∧
    search && realtime = false.
Proof.
  exists (field_is ui "data_structure" "Structured"
          && field_is ui "schema_flexibility" "Yes"),
    (field_is ui "scalability" "High" && field_is ui "transactions" "High"),
    (field_is ui "app_type" "Analytics" && field_is ui "scalability" "High"),
    (field_is ui "data_structure" "Unstructured"
     && field_is ui "transactions" "High"),
    (field_is ui "app_type" "Web"),
    (field_is ui "app_type" "Real-time"
     && field_is ui "data_structure" "Unstructured"),
    (field_is ui "data_structure" "Unstructured"
     && field_is ui "app_type" "Analytics"),
    (field_is ui "app_type" "Real-time").
  split; [|split].
  - unfold fired, tradeoff_rules. cbn [List.filter fst snd].
    by repeat match goal with |- context [if ?b then _ else _] => destruct b end.
  - unfold fired, alternative_rules. cbn [List.filter fst snd].
    by repeat match goal with |- context [if ?b then _ else _] => destruct b end.
  - rewrite !field_is_lookup.
    destruct (ui !! "app_type") as [a|], (ui !! "data_structure") as [d|];
      cbn [andb];
      repeat match goal with
             | |- context [String.eqb ?x ?y] =>
                 destruct (String.eqb_spec x y); subst; try discriminate
             end;
      cbn [andb]; rewrite ?andb_false_r; by repeat split.
Qed.

(** X9. Whatever the dictionary, [identify_tradeoffs] returns at most three
    trade-offs; the schema and the document trade-off never come together,
    nor do the analytics and the read-versus-write trade-off. *)
Theorem tradeoffs_at_most_three (ui : gmap string string) (l : list Tradeoff) :
  identify_tradeoffs ui = Ok l →
  (length l ≤ 3)%nat ∧
  ¬ (tradeoff_schema ∈ l ∧ tradeoff_document ∈ l) ∧
  ¬ (tradeoff_analytics ∈ l ∧ tradeoff_read_write ∈ l).
Proof.
  intros ->%identify_tradeoffs_returned.
  destruct (fired_rules_shape ui)
    as (b1 & b2 & b3 & b4 & b5 & _ & _ & _ & -> & _ & H14 & H35 & _).
  destruct b1, b2, b3, b4, b5; try discriminate H14; try discriminate H35;
    apply (bool_decide_unpack _); vm_compute; exact I.
Qed.

Lemma tradeoffs_at_most_three_witness :
  (length [tradeoff_cap; tradeoff_analytics; tradeoff_document] ≤ 3)%nat ∧
  ¬ (tradeoff_schema ∈ [tradeoff_cap; tradeoff_analytics; tradeoff_document] ∧
     tradeoff_document ∈ [tradeoff_cap; tradeoff_analytics; tradeoff_document]) ∧
  ¬ (tradeoff_analytics ∈ [tradeoff_cap; tradeoff_analytics; tradeoff_document] ∧
     tradeoff_read_write ∈ [tradeoff_cap; tradeoff_analytics; tradeoff_document]).
Proof.
  apply (tradeoffs_at_most_three
           (make_inputs "Analytics" "Unstructured" "High" "High" "Yes")).
  vm_compute. reflexivity.
Defined.

(** X10. Whatever the dictionary, [suggest_alternatives] returns at most three
    alternatives; the streaming alternative never comes without the
    time-series one, and the OLAP and time-series alternatives never come
    together. *)
Theorem alternatives_at_most_three (ui : gmap string string)
    (l : list Alternative) :
  suggest_alternatives ui = Ok l →
  (length l ≤ 3)%nat ∧
  (alternative_streaming ∈ l → alternative_time_series ∈ l) ∧
  ¬ (alternative_olap ∈ l ∧ alternative_time_series ∈ l).
Proof.
  intros ->%suggest_alternatives_returned.
  destruct (fired_rules_shape ui)
    as (b1 & b2 & b3 & b4 & b5 & c2 & c4 & c5 & _ & -> & _ & _ & H25 & H15 & H45).
  destruct b3, c2, b2, c4, c5; try discriminate H15; try discriminate H45;
    try (specialize (H25 eq_refl); discriminate H25);
    apply (bool_decide_unpack _); vm_compute; exact I.
Qed.

Lemma alternatives_at_most_three_witness :
  (length [alternative_streaming; alternative_distributed_sql;
           alternative_time_series] ≤ 3)%nat ∧
  (alternative_streaming
     ∈ [alternative_streaming; alternative_distributed_sql;
        alternative_time_series] →
   alternative_time_series
     ∈ [alternative_streaming; alternative_distributed_sql;
        alternative_time_series]) ∧
  ¬ (alternative_olap
       ∈ [alternative_streaming; alternative_distributed_sql;
          alternative_time_series] ∧
     alternative_time_series
       ∈ [alternative_streaming; alternative_distributed_sql;
          alternative_time_series]).
Proof.
  apply (alternatives_at_most_three
           (make_inputs "Real-time" "Unstructured" "High" "High" "No")).
  vm_compute. reflexivity.
Defined.

(** X11. In the result of [analyze] the CAP trade-off is reported exactly when
    the distributed-SQL alternative is suggested, and the analytics
    trade-off exactly when the OLAP alternative is. *)
Theorem tradeoffs_match_alternatives (ui : gmap string string) :
  has_all_keys ui = true →
  ∃ r, analyze ui = Ok r ∧
    (tradeoff_cap ∈ tradeoffs r ↔ alternative_distributed_sql ∈ alternatives r) ∧
    (tradeoff_analytics ∈ tradeoffs r ↔ alternative_olap ∈ alternatives r).
Proof.
  intros Hk.
  destruct (has_all_keys_lookup _ Hk) as (a & d & s & t & f & Ha & Hd & Hs & Ht & Hf).
  destruct (analyze_spec _ _ _ _ _ _ Ha Hd Hs Ht Hf) as (rec & _ & Hr).
  eexists. split; [exact Hr|]. cbn [tradeoffs alternatives].
  destruct (fired_rules_shape ui)
    as (b1 & b2 & b3 & b4 & b5 & c2 & c4 & c5 & -> & -> & _).
  destruct b1, b2, b3, b4, b5, c2, c4, c5;
    apply (bool_decide_unpack _); vm_compute; exact I.
Qed.

Lemma tradeoffs_match_alternatives_witness :
  ∃ r, analyze (make_inputs "Analytics" "Structured" "High" "High" "No") = Ok r ∧
    (tradeoff_cap ∈ tradeoffs r ↔ alternative_distributed_sql ∈ alternatives r) ∧
    (tradeoff_analytics ∈ tradeoffs r ↔ alternative_olap ∈ alternatives r).
Proof.
  apply (tradeoffs_match_alternatives
           (make_inputs "Analytics" "Structured" "High" "High" "No")).
  vm_compute. reflexivity.
Defined.

(** ** [analyze]: the recommendation against the scores *)

Lemma total_mysql_le_postgresql a d s t f :
  total a d s t f "mysql" ≤ total a d s t f "postgresql".
Proof.
  unfold total.
  pose proof (mysql_cell_le_postgresql_cell "app_type" _ a
                (list_elem_of_lookup_2 score_tables 0%nat _ eq_refl)).
  pose proof (mysql_cell_le_postgresql_cell "data_structure" _ d
                (list_elem_of_lookup_2 score_tables 1%nat _ eq_refl)).
  pose proof (mysql_cell_le_postgresql_cell "scalability" _ s
                (list_elem_of_lookup_2 score_tables 2%nat _ eq_refl)).
  pose proof (mysql_cell_le_postgresql_cell "transactions" _ t
                (list_elem_of_lookup_2 score_tables 3%nat _ eq_refl)).
  pose proof (mysql_cell_le_postgresql_cell "schema_flexibility" _ f
                (list_elem_of_lookup_2 score_tables 4%nat _ eq_refl)).
  lia.
Qed.

Lemma score_map_lookup_inv my pg mo db s :
  score_map my pg mo !! db = Some s → s = my ∨ s = pg ∨ s = mo.
Proof.
  rewrite score_map_unfold. intros H.
  repeat (apply lookup_insert_Some in H as [[_ <-] | [_ H]]; [tauto|]).
  by rewrite lookup_empty in H.
Qed.

(** The ranked list of three scores, by the three comparisons of the
    sort. *)
Lemma sort_three_cases my pg mo :
  ∃ p0 p1 p2,
    sort_by_score_desc (unranked my pg mo) = [p0; p1; p2] ∧
    score p1 ≤ score p0 ∧ score p2 ≤ score p1 ∧
    my ≤ score p0 ∧ pg ≤ score p0 ∧ mo ≤ score p0 ∧
    name p0 ∈ candidate_names ∧
    (name p0 = "MySQL" →
       p0 = profile_of mysql_entry my ∧
       (my ≤ pg → p1 = profile_of postgresql_entry pg)).
Proof.
  unfold unranked, profile_of, candidate_names.
  cbn [sort_by_score_desc insert_by_score score].
  destruct (Z.ltb_spec pg mo), (Z.ltb_spec my mo), (Z.ltb_spec my pg);
    cbn [insert_by_score score];
    repeat match goal with
           | |- context [Z.ltb ?x ?y] => destruct (Z.ltb_spec x y)
           end;
    try lia;
    (eexists _, _, _; split; [reflexivity|];
     cbn [score name entry_name mysql_entry postgresql_entry mongodb_entry];
     repeat (split; [lia|]);
     split; [by repeat constructor|];
     first [ by intros [=] | intros _; split; [done|]; intros; (lia || done) ]).
Qed.

(** The recommendation [analyze] makes, against the ranked list. *)
Lemma analyze_ranked ui :
  has_all_keys ui = true →
  ∃ r my pg mo p0 p1 p2 base,
    analyze ui = Ok r ∧
    scores r = score_map my pg mo ∧ my ≤ pg ∧
    profiles r = [p0; p1; p2] ∧
    score p1 ≤ score p0 ∧ score p2 ≤ score p1 ∧
    my ≤ score p0 ∧ pg ≤ score p0 ∧ mo ≤ score p0 ∧
    name p0 ∈ candidate_names ∧
    (name p0 = "MySQL" →
       p0 = profile_of mysql_entry my ∧
       (my ≤ pg → p1 = profile_of postgresql_entry pg)) ∧
    Forall (λ sentence, String.prefix "Note: " sentence = false) base ∧
    recommendation r
    = {| database := name p0;
         confidence :=
           (if 3 <? score p0 - score p1 then "High"
            else if 1 <? score p0 - score p1 then "Medium" else "Low");
         reasoning :=
           append_if (score p0 - score p1 <=? 2) (closeness_note p1 p0) base |}.
Proof.
  intros Hk.
  destruct (has_all_keys_lookup _ Hk) as (a & d & s & t & f & Ha & Hd & Hs & Ht & Hf).
  destruct (analyze_spec _ _ _ _ _ _ Ha Hd Hs Ht Hf) as (rec & Hrec & Hr).
  pose proof (total_mysql_le_postgresql a d s t f) as Hle.
  destruct (sort_three_cases (total a d s t f "mysql")
              (total a d s t f "postgresql") (total a d s t f "mongodb"))
    as (p0 & p1 & p2 & Hsort & H).
  rewrite Hsort in Hr, Hrec.
  destruct (generate_recommendation_spec p0 [p1; p2] ui Hk) as (base & Hn & Hg).
  rewrite Hg in Hrec. injection Hrec as <-.
  eexists _, _, _, _, p0, p1, p2, base. split; [exact Hr|].
  cbn [scores profiles recommendation].
  split; [reflexivity|]. split; [exact Hle|]. split; [reflexivity|].
  destruct H as (? & ? & ? & ? & ? & ? & ?).
  repeat (split; [done|]). reflexivity.
Qed.

(** X12. The recommended database is the name of the first ranked profile, one
    of the three candidates, and no candidate scores more than it; the
    confidence is one of High, Medium and Low. *)
Theorem recommended_has_top_score (ui : gmap string string) :
  has_all_keys ui = true →
  ∃ r top,
    analyze ui = Ok r ∧
    head (profiles r) = Some top ∧
    database (recommendation r) = name top ∧
    name top ∈ ["MySQL"; "PostgreSQL"; "MongoDB"] ∧
    (∀ db s, scores r !! db = Some s → s ≤ score top) ∧
    (∀ p, p ∈ profiles r → score p ≤ score top) ∧
    confidence (recommendation r) ∈ ["High"; "Medium"; "Low"].
Proof.
  intros Hk.
  destruct (analyze_ranked ui Hk)
    as (r & my & pg & mo & p0 & p1 & p2 & base & Hr & Hsc & _ & Hp & H10 & H21
        & Hmy & Hpg & Hmo & Hname & _ & _ & Hrec).
  exists r, p0. split; [done|]. rewrite Hp, Hsc, Hrec.
  cbn [head database confidence]. repeat (split; [done|]).
  split; [|split].
  - intros db s [-> | [-> | ->]]%score_map_lookup_inv; lia.
  - intros p Hin.
    repeat (apply elem_of_cons in Hin as [-> | Hin]; [lia|]).
    by apply elem_of_nil in Hin.
  - destruct (3 <? _); [|destruct (1 <? _)]; by repeat constructor.
Qed.

Lemma recommended_has_top_score_witness :
  ∃ r top,
    analyze (make_inputs "Analytics" "Semi-structured" "High" "High" "Yes") = Ok r ∧
    head (profiles r) = Some top ∧
    database (recommendation r) = name top ∧
    name top ∈ ["MySQL"; "PostgreSQL"; "MongoDB"] ∧
    (∀ db s, scores r !! db = Some s → s ≤ score top) ∧
    (∀ p, p ∈ profiles r → score p ≤ score top) ∧
    confidence (recommendation r) ∈ ["High"; "Medium"; "Low"].
Proof.
  apply (recommended_has_top_score
           (make_inputs "Analytics" "Semi-structured" "High" "High" "Yes")).
  vm_compute. reflexivity.
Defined.

(** X13. MySQL never outscores PostgreSQL, so it is recommended only through the
    tie-break: whenever [analyze] recommends MySQL, PostgreSQL has the same
    score and is the runner-up, the confidence is Low, and the reasoning
    ends with the closeness note naming PostgreSQL. *)
Theorem mysql_recommended_only_on_tie (ui : gmap string string) :
  has_all_keys ui = true →
  ∃ r, analyze ui = Ok r ∧
    (database (recommendation r) = "MySQL" →
     ∃ my rest,
       scores r !! "mysql" = Some my ∧ scores r !! "postgresql" = Some my ∧
       profiles r
       = profile_of mysql_entry my :: profile_of postgresql_entry my :: rest ∧
       confidence (recommendation r) = "Low" ∧
       last (reasoning (recommendation r))
       = Some ("Note: PostgreSQL scored closely (" ++ str my ++ " vs " ++ str my
               ++ "). Consider evaluating both options based on team expertise."
              )%string).
Proof.
  intros Hk.
  destruct (analyze_ranked ui Hk)
    as (r & my & pg & mo & p0 & p1 & p2 & base & Hr & Hsc & Hle & Hp & H10 & H21
        & Hmy & Hpg & Hmo & Hname & Hmysql & _ & Hrec).
  exists r. split; [done|]. rewrite Hp, Hsc, Hrec. cbn [database confidence reasoning].
  intros Hn. destruct (Hmysql Hn) as (-> & Hp1). specialize (Hp1 Hle). subst p1.
  cbn [score profile_of] in *. assert (pg = my) as -> by lia.
  exists my, [p2].
  destruct (score_map_lookups my my mo) as (-> & -> & _).
  repeat (split; [done|]).
  rewrite Z.sub_diag. cbn [Z.ltb Z.leb Z.compare append_if].
  split; [reflexivity|]. by rewrite last_snoc.
Qed.

Lemma mysql_recommended_only_on_tie_witness :
  ∃ r, analyze (make_inputs "Web" "Structured" "Medium" "High" "No") = Ok r ∧
    (database (recommendation r) = "MySQL" →
     ∃ my rest,
       scores r !! "mysql" = Some my ∧ scores r !! "postgresql" = Some my ∧
       profiles r
       = profile_of mysql_entry my :: profile_of postgresql_entry my :: rest ∧
       confidence (recommendation r) = "Low" ∧
       last (reasoning (recommendation r))
       = Some ("Note: PostgreSQL scored closely (" ++ str my ++ " vs " ++ str my
               ++ "). Consider evaluating both options based on team expertise."
              )%string).
Proof.
  apply (mysql_recommended_only_on_tie
           (make_inputs "Web" "Structured" "Medium" "High" "No")).
  vm_compute. reflexivity.
Defined.

(** On that input MySQL is indeed the recommendation. *)
Example mysql_recommended_on_web_structured :
  ∃ r, analyze (make_inputs "Web" "Structured" "Medium" "High" "No") = Ok r ∧
       database (recommendation r) = "MySQL" ∧
       scores r = score_map 18 18 10.
Proof. eexists. split; [by vm_compute|]. split; by vm_compute. Qed.

(** X14. [analyze] never reads a key other than the five fields: adding,
    changing or removing any other key leaves its outcome unchanged. *)
Theorem analyze_ignores_other_keys (ui : gmap string string) (k v : string) :
  k ∉ input_keys →
  analyze (<[k := v]> ui) = analyze ui ∧ analyze (delete k ui) = analyze ui.
Proof.
  intros Hk. split; apply analyze_ext; intros k' Hk'.
  - apply lookup_insert_ne. congruence.
  - apply lookup_delete_ne. congruence.
Qed.

Lemma analyze_ignores_other_keys_witness :
  analyze (<["region" := "eu"]> (make_inputs "Web" "Structured" "Low" "High" "No"))
  = analyze (make_inputs "Web" "Structured" "Low" "High" "No") ∧
  analyze (delete "region" (make_inputs "Web" "Structured" "Low" "High" "No"))
  = analyze (make_inputs "Web" "Structured" "Low" "High" "No").
Proof.
  apply (analyze_ignores_other_keys
           (make_inputs "Web" "Structured" "Low" "High" "No") "region" "eu").
  apply (bool_decide_unpack _). vm_compute. exact I.
Defined.

(** ** The text report *)

Lemma report_entries_present r ui a d s t f :
  ui !! "app_type" = Some a → ui !! "data_structure" = Some d →
  ui !! "scalability" = Some s → ui !! "transactions" = Some t →
  ui !! "schema_flexibility" = Some f →
  report_entries r ui
  = Ok (requirement_entries a d s t f
        ++ recommendation_entries (recommendation r)
        ++ body_entries r ++ closing_entries).
Proof.
  intros Ha Hd Hs Ht Hf. unfold report_entries.
  rewrite (getitem_Some _ _ _ Ha), (getitem_Some _ _ _ Hd),
    (getitem_Some _ _ _ Hs), (getitem_Some _ _ _ Ht), (getitem_Some _ _ _ Hf).
  cbn [mbind result_bind].
  unfold requirement_entries, recommendation_entries, body_entries,
    closing_entries.
  f_equal. cbn [app].
  destruct (tradeoffs r), (alternatives r);
    repeat (rewrite <- ?app_assoc; cbn [app]); repeat f_equal;
    by rewrite ?app_nil_r, <- ?app_assoc.
Qed.

Lemma report_entries_missing r ui k :
  missing_key input_keys ui = Some k →
  report_entries r ui = Raise (KeyError k).
Proof.
  unfold missing_key, contains, report_entries, getitem. cbn [find input_keys].
  destruct (ui !! "app_type"); cbn [negb mbind result_bind]; [|by intros [= <-]].
  destruct (ui !! "data_structure"); cbn [negb mbind result_bind];
    [|by intros [= <-]].
  destruct (ui !! "scalability"); cbn [negb mbind result_bind]; [|by intros [= <-]].
  destruct (ui !! "transactions"); cbn [negb mbind result_bind]; [|by intros [= <-]].
  destruct (ui !! "schema_flexibility"); cbn [negb mbind result_bind];
    [|by intros [= <-]].
  discriminate.
Qed.

Lemma missing_key_None_lookup ui :
  missing_key input_keys ui = None → has_all_keys ui = true.
Proof. apply first_missing_None. Qed.

(** X15. [generate_text_report] fails only for a dictionary that lacks one of the
    five fields, with the [KeyError] of the first one it lacks, whatever the
    results are; otherwise it returns the text. *)
Theorem report_raises_only_on_missing_field (r : AnalysisResult)
    (ui : gmap string string) :
  match missing_key input_keys ui with
  | Some k => ui !! k = None ∧ generate_text_report r ui = Raise (KeyError k)
  | None => ∃ text, generate_text_report r ui = Ok text
  end.
Proof.
  destruct (missing_key input_keys ui) as [k|] eqn:E.
  - split.
    + unfold missing_key in E. apply find_some in E as [_ Hk].
      unfold contains in Hk. by destruct (ui !! k).
    + unfold generate_text_report. by rewrite (report_entries_missing _ _ _ E).
  - apply missing_key_None_lookup in E.
    destruct (has_all_keys_lookup _ E) as (a & d & s & t & f & Ha & Hd & Hs & Ht & Hf).
    unfold generate_text_report.
    rewrite (report_entries_present _ _ _ _ _ _ _ Ha Hd Hs Ht Hf).
    cbn [mbind result_bind]. eauto.
Qed.

Lemma string_append_assoc (s1 s2 s3 : string) :
  ((s1 ++ s2) ++ s3 = s1 ++ (s2 ++ s3))%string.
Proof.
  induction s1 as [|c s1 IH]; [done|].
  change (String c ((s1 ++ s2) ++ s3) = String c (s1 ++ (s2 ++ s3)))%string.
  by rewrite IH.
Qed.

(** Joining two non-empty lists of entries joins their texts. *)
Lemma string_concat_app sep (l1 l2 : list string) :
  l1 ≠ [] → l2 ≠ [] →
  String.concat sep (l1 ++ l2)
  = (String.concat sep l1 ++ sep ++ String.concat sep l2)%string.
Proof.
  intros H1 H2. induction l1 as [|x l1 IH]; [done|].
  destruct l1 as [|x' l1].
  - destruct l2; [done | reflexivity].
  - change (String.concat sep ((x :: x' :: l1) ++ l2))
      with (x ++ sep ++ String.concat sep ((x' :: l1) ++ l2))%string.
    rewrite IH by done.
    change (String.concat sep (x :: x' :: l1))
      with (x ++ sep ++ String.concat sep (x' :: l1))%string.
    by rewrite !string_append_assoc.
Qed.

(** X16. The text of the report opens with the title block, the five field
    values as given and the recommended database with its confidence, and
    closes with the end-of-report block. *)
Theorem report_frame (r : AnalysisResult) (ui : gmap string string)
    (a d s t f : string) :
  ui !! "app_type" = Some a → ui !! "data_structure" = Some d →
  ui !! "scalability" = Some s → ui !! "transactions" = Some t →
  ui !! "schema_flexibility" = Some f →
  ∃ middle,
    generate_text_report r ui
    = Ok (String.concat newline
            [ repeat_string "=" 70;
              "DATABASE DECISION ASSISTANT - ANALYSIS REPORT";
              repeat_string "=" 70;
              "";
              "USER REQUIREMENTS:";
              repeat_string "-" 70;
              "Application Type: " ++ a;
              "Data Structure: " ++ d;
              "Scalability: " ++ s;
              "Transactions: " ++ t;
              "Schema Flexibility: " ++ f;
              "";
              "RECOMMENDATION:";
              repeat_string "-" 70;
              "Database: " ++ database (recommendation r);
              "Confidence: " ++ confidence (recommendation r) ]
          ++ newline ++ middle ++ newline
          ++ String.concat newline
               [ repeat_string "=" 70; "End of Report"; repeat_string "=" 70 ]
         )%string.
Proof.
  intros Ha Hd Hs Ht Hf. unfold generate_text_report.
  rewrite (report_entries_present _ _ _ _ _ _ _ Ha Hd Hs Ht Hf).
  cbn [mbind result_bind]. exists (String.concat newline (body_entries r)).
  f_equal. rewrite app_assoc.
  rewrite (string_concat_app newline (_ ++ _) (body_entries r ++ closing_entries));
    [| done | by unfold body_entries].
  rewrite (string_concat_app newline (body_entries r) closing_entries);
    [| by unfold body_entries | done].
  reflexivity.
Qed.

Lemma report_frame_witness :
  ∃ middle,
    generate_text_report
      {| profiles := []; tradeoffs := [];
         recommendation :=
           {| database := "MySQL"; confidence := "Low"; reasoning := [] |};
         alternatives := []; scores := ∅ |}
      (make_inputs "Web" "Structured" "Low" "High" "No")
    = Ok (String.concat newline
            [ repeat_string "=" 70;
              "DATABASE DECISION ASSISTANT - ANALYSIS REPORT";
              repeat_string "=" 70;
              "";
              "USER REQUIREMENTS:";
              repeat_string "-" 70;
              "Application Type: " ++ "Web";
              "Data Structure: " ++ "Structured";
              "Scalability: " ++ "Low";
              "Transactions: " ++ "High";
              "Schema Flexibility: " ++ "No";
              "";
              "RECOMMENDATION:";
              repeat_string "-" 70;
              "Database: " ++ "MySQL";
              "Confidence: " ++ "Low" ]
          ++ newline ++ middle ++ newline
          ++ String.concat newline
               [ repeat_string "=" 70; "End of Report"; repeat_string "=" 70 ]
         )%string.
Proof.
  apply (report_frame
           {| profiles := []; tradeoffs := [];
              recommendation :=
                {| database := "MySQL"; confidence := "Low"; reasoning := [] |};
              alternatives := []; scores := ∅ |}
           (make_inputs "Web" "Structured" "Low" "High" "No")
           "Web" "Structured" "Low" "High" "No");
    vm_compute; reflexivity.
Defined.

Lemma report_entries_returned r ui entries :
  report_entries r ui = Ok entries →
  ∃ a d s t f,
    entries = requirement_entries a d s t f
              ++ recommendation_entries (recommendation r)
              ++ body_entries r ++ closing_entries.
Proof.
  intros H. destruct (missing_key input_keys ui) as [k|] eqn:E.
  - rewrite (report_entries_missing _ _ _ E) in H. discriminate.
  - apply missing_key_None_lookup in E.
    destruct (has_all_keys_lookup _ E) as (a & d & s & t & f & Ha & Hd & Hs & Ht & Hf).
    rewrite (report_entries_present _ _ _ _ _ _ _ Ha Hd Hs Ht Hf) in H.
    injection H as <-. by exists a, d, s, t, f.
Qed.

(** Splits a membership in a list of report entries into its cases and
    discards those whose entry starts differently. *)
Ltac entry_cases H :=
  repeat first
    [ apply elem_of_app in H as [H | H]
    | apply elem_of_cons in H as [H | H]
    | apply elem_of_nil in H; destruct H
    | apply list_elem_of_fmap in H as (? & H & _)
    | apply list_elem_of_bind in H as (? & H & _)
    | progress unfold profile_entries, tradeoff_entries, alternative_entries in H ];
  try (cbv in H; discriminate H).

(** X17. The report has its trade-off section exactly when there are trade-offs,
    and its alternatives section exactly when there are alternatives: the
    section heading is an entry of the report in that case only. *)
Theorem report_sections (r : AnalysisResult) (ui : gmap string string)
    (entries : list string) :
  report_entries r ui = Ok entries →
  ("KEY TRADE-OFFS:" ∈ entries ↔ tradeoffs r ≠ []) ∧
  ("ALTERNATIVE DATABASES:" ∈ entries ↔ alternatives r ≠ []).
Proof.
  intros (a & d & s & t & f & ->)%report_entries_returned.
  unfold requirement_entries, recommendation_entries, body_entries,
    closing_entries.
  split; split.
  - destruct (tradeoffs r) as [|x l]; [|done].
    destruct (alternatives r); intros H; entry_cases H.
  - destruct (tradeoffs r) as [|x l]; [done|]. intros _.
    rewrite !elem_of_app, !elem_of_cons. tauto.
  - destruct (alternatives r) as [|x l]; [|done].
    destruct (tradeoffs r); intros H; entry_cases H.
  - destruct (alternatives r) as [|x l]; [done|]. intros _.
    destruct (tradeoffs r); rewrite !elem_of_app, !elem_of_cons; tauto.
Qed.

Lemma report_sections_witness :
  ∃ entries,
    report_entries
      {| profiles := []; tradeoffs := [tradeoff_cap];
         recommendation :=
           {| database := "MySQL"; confidence := "Low"; reasoning := [] |};
         alternatives := []; scores := ∅ |}
      (make_inputs "Web" "Structured" "High" "High" "No") = Ok entries ∧
    ("KEY TRADE-OFFS:" ∈ entries ↔ [tradeoff_cap] ≠ []) ∧
    ("ALTERNATIVE DATABASES:" ∈ entries ↔ @nil Alternative ≠ []).
Proof.
  eexists. split; [vm_compute; reflexivity|].
  apply (report_sections
           {| profiles := []; tradeoffs := [tradeoff_cap];
              recommendation :=
                {| database := "MySQL"; confidence := "Low"; reasoning := [] |};
              alternatives := []; scores := ∅ |}
           (make_inputs "Web" "Structured" "High" "High" "No")).
  vm_compute. reflexivity.
Defined.

(** X18. The dictionary [main] builds from the five radio buttons always has the
    five fields, so the analysis and the export of its report never raise;
    with the options the radio buttons offer it is a valid input. *)
Theorem app_pipeline_never_raises (a d s t f : string) :
  (∃ r text,
     analyze (make_inputs a d s t f) = Ok r ∧
     generate_text_report r (make_inputs a d s t f) = Ok text) ∧
  (a ∈ ["Web"; "Analytics"; "Real-time"] →
   d ∈ ["Structured"; "Semi-structured"; "Unstructured"] →
   s ∈ ["Low"; "Medium"; "High"] → t ∈ ["Low"; "High"] → f ∈ ["Yes"; "No"] →
   valid_input (make_inputs a d s t f) = true).
Proof.
  assert (make_inputs a d s t f !! "app_type" = Some a ∧
          make_inputs a d s t f !! "data_structure" = Some d ∧
          make_inputs a d s t f !! "scalability" = Some s ∧
          make_inputs a d s t f !! "transactions" = Some t ∧
          make_inputs a d s t f !! "schema_flexibility" = Some f)
    as (Ha & Hd & Hs & Ht & Hf) by (repeat split; by vm_compute).
  split.
  - destruct (analyze_spec _ _ _ _ _ _ Ha Hd Hs Ht Hf) as (rec & _ & Hr).
    eexists _, _. split; [exact Hr|].
    unfold generate_text_report.
    by rewrite (report_entries_present _ _ _ _ _ _ _ Ha Hd Hs Ht Hf).
  - intros Ia Id Is It If. unfold valid_input, field_valid.
    cbn [forallb criteria fst snd]. rewrite Ha, Hd, Hs, Ht, Hf.
    by rewrite !bool_decide_eq_true_2.
Qed.

Lemma app_pipeline_never_raises_witness :
  valid_input (make_inputs "Analytics" "Semi-structured" "Medium" "Low" "No") = true.
Proof.
  apply (proj2 (app_pipeline_never_raises
                  "Analytics" "Semi-structured" "Medium" "Low" "No"));
    apply (bool_decide_unpack _); vm_compute; exact I.
Defined.
